(** * ai-virtual-assistant: conversation store, retrying transport,
      DataRobot inference clients and their LangChain adapters

    A shallow embedding of
      - src/agent/datastore/datastore.py   (Datastore, MockDatabaseClient)
      - src/common/assistant_client.py     (AssistantClient._make_request)
      - src/common/datarobot_client.py     (LLM, embeddings and rerank clients)
      - src/common/datarobot_langchain.py  (chat model and rerank adapters)

    Python objects are modelled by records, dicts by [gmap], [int] by [Z],
    [float] by [pyfloat] (NaN, the infinities, and the finite values by the
    rational they denote).  Code that raises, logs, prints, sleeps or calls
    a remote service runs in a state-and-exception monad over a world made
    of the state of the remote service and the trace of the observable
    actions.  Library functions whose behaviour depends on the interpreter
    or on a service ([time.sleep], [list.sort], the HTTP session, the
    DataRobot deployment, [eval]) are interfaces the code is parameterised
    by. *)

From stdpp Require Import base numbers strings list gmap pretty sorting.
From Stdlib Require Import QArith.

#[local] Open Scope Z_scope.
#[local] Open Scope string_scope.
#[local] Open Scope list_scope.
#[local] Open Scope stdpp_scope.

(** ** Exceptions *)

(** The exception classes the four files raise or catch.  The three last
    ones are the subclasses of [requests.exceptions.RequestException] that
    a failed HTTP attempt raises (network error, non-2xx status, timeout). *)
Inductive exn_class :=
  | Exception
  | ValueError
  | TypeError
  | IndexError
  | SyntaxError
  | OverflowError
  | RequestException
  | ConnectionError
  | HTTPError
  | ReadTimeout.

(** An exception object: its class and [str(e)]. *)
Record exn := Exn { exn_cls : exn_class; exn_str : string }.

(** [isinstance(e, requests.exceptions.RequestException)] *)
Definition is_RequestException (e : exn) : bool :=
  match exn_cls e with
  | RequestException | ConnectionError | HTTPError | ReadTimeout => true
  | _ => false
  end.

Inductive outcome (A : Type) :=
  | Ret (a : A)
  | Raise (e : exn).
Arguments Ret {A} a.
Arguments Raise {A} e.

(** ** Floats *)

(** A Python [float]: NaN, an infinity, or a finite value given by the
    rational it denotes (the sign of a zero is not kept). *)
Inductive pyfloat :=
  | FNaN
  | FInf (negative : bool)
  | FNum (q : Q).

(** [a < b] on floats: false as soon as one side is NaN. *)
Definition float_lt (a b : pyfloat) : bool :=
  match a with
  | FNaN => false
  | FInf true => match b with FNaN | FInf true => false | _ => true end
  | FInf false => false
  | FNum x =>
      match b with
      | FNaN | FInf true => false
      | FInf false => true
      | FNum y => match (x ?= y)%Q with Lt => true | _ => false end
      end
  end.

(** [a == b] on floats: NaN equals nothing. *)
Definition float_eq (a b : pyfloat) : bool :=
  match a, b with
  | FInf s, FInf t => bool_decide (s = t)
  | FNum x, FNum y => Qeq_bool x y
  | _, _ => false
  end.


(** [float(z)] for a Python int: the nearest double, ties to the even
    mantissa, and [OverflowError] when that is not finite. *)
Definition float_of_int (z : Z) : outcome pyfloat :=
  let n := Z.abs z in
  let shift := Z.max 0 (Z.log2 n + 1 - 53) in
  let mantissa := Z.shiftr n shift in
  let rest := Z.land n (Z.ones shift) in
  let half := Z.shiftl 1 (shift - 1) in
  let up := (0 <? shift)%Z
            && ((half <? rest)%Z || ((rest =? half)%Z && Z.odd mantissa)) in
  let rounded := Z.shiftl (if up then mantissa + 1 else mantissa)%Z shift in
  if (2 ^ 1024 <=? rounded)%Z
  then Raise (Exn OverflowError "int too large to convert to float")
  else Ret (FNum (inject_Z (Z.sgn z * rounded))).

(** ** Observable actions *)

#[local] Set Warnings "-register-all".

Inductive json :=
  | JNull
  | JBool (b : bool)
  | JNum (z : Z)
  | JStr (s : string)
  | JArr (items : list json)
  | JObj (fields : list (string * json)).

(** One row of the one-row data frame handed to [Deployment.predict]. *)
Inductive row :=
  | RowPrompt (prompt : string)
  | RowText (text : string)
  | RowRerank (query document : string) (document_index : nat).

Inductive log_level := WARNING | ERROR | INFO.

Inductive event :=
  | EvPrint (line : string)
  | EvLog (lvl : log_level) (msg : string)
  | EvSleep (secs : pyfloat)
  | EvRequest (method url : string) (body : option json) (timeout : Z)
  | EvPredict (r : row).

(** ** The monad *)

Record world (S : Type) := World { ext : S; trace : list event }.
Arguments World {S} ext trace.
Arguments ext {S} w.
Arguments trace {S} w.

Definition M (S A : Type) : Type := world S → outcome A * world S.

#[global] Instance M_ret {S} : MRet (M S) := λ A a w, (Ret a, w).
#[global] Instance M_bind {S} : MBind (M S) := λ A B f m w,
  match m w with
  | (Ret a, w') => f a w'
  | (Raise e, w') => (Raise e, w')
  end.

Definition raise {S A} (e : exn) : M S A := λ w, (Raise e, w).

(** [try: body  except Exception as e: handler e] *)
Definition try_except {S A} (body : M S A) (handler : exn → M S A) : M S A :=
  λ w, match body w with
       | (Ret a, w') => (Ret a, w')
       | (Raise e, w') => handler e w'
       end.

Definition emit {S} (ev : event) : M S unit :=
  λ w, (Ret (), World (ext w) (trace w ++ [ev])).

Definition print {S} (line : string) : M S unit := emit (EvPrint line).
Definition logger_warning {S} (msg : string) : M S unit := emit (EvLog WARNING msg).
Definition logger_error {S} (msg : string) : M S unit := emit (EvLog ERROR msg).
Definition logger_info {S} (msg : string) : M S unit := emit (EvLog INFO msg).

(** A method of an object kept in the world: it reads and updates [self]. *)
Definition get_self {S} : M S S := λ w, (Ret (ext w), w).
Definition set_self {S} (s : S) : M S unit := λ w, (Ret (), World s (trace w)).

(** A call into a remote service whose state is the world's [ext]. *)
Definition extcall {S A} (ev : event) (f : S → outcome A * S) : M S A :=
  λ w, let '(r, s') := f (ext w) in (r, World s' (trace w ++ [ev])).

(** ** Python built-ins *)

(** [l[:k]] for a Python int [k]: a negative [k] counts from the end. *)
Definition slice_to {A} (l : list A) (k : Z) : list A :=
  if bool_decide (0 ≤ k)%Z then take (Z.to_nat k) l
  else take (length l - Z.to_nat (- k)) l.

(** [range(n)] *)
Definition range (n : Z) : list Z := Z.of_nat <$> seq 0 (Z.to_nat n).

(** [time.sleep]: what it raises for a sleep length, [None] when it sleeps.
    Which lengths it rejects depends on the interpreter and on the time type
    of the platform (CPython: a negative length, NaN, and a length whose
    nanoseconds do not fit that type). *)
Class Clock := { sleep_error : pyfloat → option exn }.

(** [time.sleep(secs)] *)
Definition time_sleep {clock : Clock} {S} (secs : pyfloat) : M S unit :=
  match sleep_error secs with
  | None => emit (EvSleep secs)
  | Some e => raise e
  end.

(** * src/agent/datastore/datastore.py *)

Module Datastore.
Section datastore.

(** The elements of a conversation history are opaque to the store. *)
Context {Turn : Type}.

(** The dict stored per session by [MockDatabaseClient.store_conversation]. *)
Record conversation := Conversation {
  user_id : option string;
  conversation_history : list Turn;
  last_conversation_time : string;
  start_conversation_time : string
}.

(** [class MockDatabaseClient]: the one attribute [self.conversations]. *)
Record MockDatabaseClient := Mock { conversations : gmap string conversation }.

(** [src.agent.datastore.postgres_client.PostgresClient] is imported by
    datastore.py: its state, constructor and four methods are an interface
    the file is parameterised by. *)
Class Postgres := {
  PostgresClient : Type;
  PgResult : Type;
  PostgresClient_init : M unit PostgresClient;
  pg_store_conversation :
    string → option string → list Turn → string → string → M PostgresClient unit;
  pg_fetch_conversation : string → M PostgresClient PgResult;
  pg_delete_conversation : string → M PostgresClient unit;
  pg_is_session : string → M PostgresClient bool
}.
Context {pg : Postgres}.

Definition MockDatabaseClient_init : M unit MockDatabaseClient :=
  print "Mock database initialized - no persistence";;
  mret (Mock ∅).

Definition mock_store_conversation (session_id : string) (uid : option string)
    (history : list Turn) (last_time start_time : string)
    : M MockDatabaseClient unit :=
  self ← get_self;
  set_self (Mock (<[session_id := Conversation uid history last_time start_time]>
                    (conversations self)));;
  print ("Mock: Stored conversation for session " +:+ session_id).

Definition mock_fetch_conversation (session_id : string)
    : M MockDatabaseClient (option conversation) :=
  self ← get_self;
  mret (conversations self !! session_id).

Definition mock_delete_conversation (session_id : string)
    : M MockDatabaseClient unit :=
  self ← get_self;
  if bool_decide (is_Some (conversations self !! session_id)) then
    set_self (Mock (delete session_id (conversations self)));;
    print ("Mock: Deleted conversation for session " +:+ session_id)
  else mret ().

Definition mock_is_session (session_id : string) : M MockDatabaseClient bool :=
  self ← get_self;
  mret (bool_decide (is_Some (conversations self !! session_id))).

(** [self.database] of a [Datastore]: one of the two backends. *)
Inductive Database :=
  | PostgresDB (c : PostgresClient)
  | MockDB (c : MockDatabaseClient).

Record Datastore := MkDatastore { database : Database }.

(** Runs a backend method on [self.database] when it is of that backend. *)
Definition on_backend {B A} (c : B) (wrap : B → Database) (m : M B A)
    : M Datastore A :=
  λ w, let '(r, w') := m (World c (trace w)) in
       (r, World (MkDatastore (wrap (ext w'))) (trace w')).

(** [Datastore.__init__], with [get_config().database.name] as argument. *)
Definition Datastore_init (db_name : string) : M unit Datastore :=
  if bool_decide (db_name = "postgres") then
    print "Using postgres to store conversation history";;
    c ← PostgresClient_init;
    mret (MkDatastore (PostgresDB c))
  else if bool_decide (db_name = "none") then
    print "Using mock database for testing (no persistence)";;
    c ← MockDatabaseClient_init;
    mret (MkDatastore (MockDB c))
  else
    raise (Exn ValueError
      (db_name +:+ " database in not supported. Supported types: postgres, none")).

Definition store_conversation (session_id : string) (uid : option string)
    (history : list Turn) (last_time start_time : string) : M Datastore unit :=
  self ← get_self;
  match database self with
  | PostgresDB c =>
      on_backend c PostgresDB
        (pg_store_conversation session_id uid history last_time start_time)
  | MockDB c =>
      on_backend c MockDB
        (mock_store_conversation session_id uid history last_time start_time)
  end.

(** The body calls the backend and has no [return]: the value is [None]. *)
Definition fetch_conversation (session_id : string)
    : M Datastore (option conversation) :=
  self ← get_self;
  match database self with
  | PostgresDB c =>
      on_backend c PostgresDB (pg_fetch_conversation session_id);; mret None
  | MockDB c =>
      on_backend c MockDB (mock_fetch_conversation session_id);; mret None
  end.

Definition delete_conversation (session_id : string) : M Datastore unit :=
  self ← get_self;
  match database self with
  | PostgresDB c => on_backend c PostgresDB (pg_delete_conversation session_id)
  | MockDB c => on_backend c MockDB (mock_delete_conversation session_id)
  end.

Definition is_session (session_id : string) : M Datastore bool :=
  self ← get_self;
  match database self with
  | PostgresDB c => on_backend c PostgresDB (pg_is_session session_id)
  | MockDB c => on_backend c MockDB (mock_is_session session_id)
  end.

End datastore.
Arguments conversation : clear implicits.
Arguments MockDatabaseClient : clear implicits.
Arguments Postgres : clear implicits.
Arguments Database Turn {_}.
Arguments Datastore Turn {_}.
End Datastore.

(** * src/common/assistant_client.py *)

Module AssistantClient.

(** [@dataclass AssistantConfig] *)
Record AssistantConfig := MkConfig {
  base_url : string;
  timeout : Z;
  retry_attempts : Z;
  retry_delay : pyfloat
}.

(** [requests.Session]: one attempt is [session.request(...)] followed by
    [response.raise_for_status()] and [response.json()]; it yields the parsed
    body or raises. *)
Class Session := {
  session_state : Type;
  session_request :
    string → string → option json → Z → session_state → outcome json * session_state
}.

(** What one iteration of a loop body does to the enclosing function. *)
Inductive flow (A : Type) :=
  | Return (a : A)
  | Continue.
Arguments Return {A} a.
Arguments Continue {A}.

Section client.
Context {session : Session} {clock : Clock}.
Variable config : AssistantConfig.

Definition attempt_once (method url : string) (data : option json)
    : M session_state json :=
  extcall (EvRequest method url data (timeout config))
          (session_request method url data (timeout config)).

(** The [except requests.exceptions.RequestException as e] clause. *)
Definition on_request_failure (attempt : Z) (e : exn)
    : M session_state (flow json) :=
  if is_RequestException e then
    logger_warning ("Request attempt " +:+ pretty (attempt + 1)%Z
                    +:+ " failed: " +:+ exn_str e);;
    if bool_decide (attempt < retry_attempts config - 1)%Z then
      time_sleep (retry_delay config);; mret Continue
    else
      raise (Exn Exception ("All " +:+ pretty (retry_attempts config)
                            +:+ " attempts failed: " +:+ exn_str e))
  else raise e.

(** [for attempt in todo: ...].  Running off the loop returns Python's
    [None], written [None]; [return response.json()] is [Some j] for the
    parsed body [j], where the body [null] parses to Python's [None] too,
    written [Some JNull]. *)
Fixpoint for_attempt (method url : string) (data : option json) (todo : list Z)
    : M session_state (option json) :=
  match todo with
  | [] => mret None
  | attempt :: rest =>
      r ← try_except (j ← attempt_once method url data; mret (Return j))
                     (on_request_failure attempt);
      match r with
      | Return j => mret (Some j)
      | Continue => for_attempt method url data rest
      end
  end.

Definition _make_request (method endpoint : string) (data : option json)
    : M session_state (option json) :=
  let url := base_url config +:+ endpoint in
  for_attempt method url data (range (retry_attempts config)).

Definition health_check : M session_state (option json) :=
  _make_request "GET" "/health" None.

(** *** Vocabulary of the retry properties *)

(** Every attempt fails with a [RequestException], whatever the state. *)
Definition always_fails : Prop :=
  ∀ method url data tmo s, ∃ e s',
    session_request method url data tmo s = (Raise e, s')
    ∧ is_RequestException e = true.

Definition is_attempt_or_sleep (ev : event) : bool :=
  match ev with
  | EvRequest _ _ _ _ | EvSleep _ => true
  | _ => false
  end.

(** [n] attempts, a sleep between consecutive ones and none after the last. *)
Fixpoint retry_pattern (attempt : event) (secs : pyfloat) (n : nat) : list event :=
  match n with
  | O => []
  | S n' =>
      match n' with
      | O => [attempt]
      | S _ => attempt :: EvSleep secs :: retry_pattern attempt secs n'
      end
  end.

(** A call that uses up its attempts: it raises the one aggregated error,
    which names [retry_attempts] and the failure [e] of the last attempt,
    and the attempts and sleeps it performed are [retry_attempts] attempts
    with the configured delay between them. *)
Definition exhausts_retries (method endpoint : string) (data : option json)
    (w : world session_state) : Prop :=
  let url := base_url config +:+ endpoint in
  ∃ e s_last w',
    _make_request method endpoint data w
    = (Raise (Exn Exception ("All " +:+ pretty (retry_attempts config)
                             +:+ " attempts failed: " +:+ exn_str e)), w')
    ∧ session_request method url data (timeout config) s_last = (Raise e, ext w')
    ∧ ∃ evs,
        trace w' = trace w ++ evs
        ∧ List.filter is_attempt_or_sleep evs
          = retry_pattern (EvRequest method url data (timeout config))
              (retry_delay config) (Z.to_nat (retry_attempts config)).

End client.
End AssistantClient.

(** * src/common/datarobot_client.py *)

Module DataRobotClient.

(** An element of a prediction result: an int, a float, a string or a
    vector of floats. *)
Inductive pvalue :=
  | PInt (z : Z)
  | PFloat (x : pyfloat)
  | PStr (s : string)
  | PVec (v : list pyfloat).

(** What [Deployment.predict] returns: [None] or a list. *)
Definition prediction : Type := option (list pvalue).

(** The bound deployment of the DataRobot SDK. *)
Class Provider := {
  deployment : Type;
  deployment_predict : row → deployment → outcome prediction * deployment
}.

(** Python built-ins applied to data that comes from the provider. *)
Class Builtins := {
  py_eval : string → outcome pvalue;
  py_repr : pvalue → string;
  py_float_of_str : string → outcome pyfloat
}.

(** A value of a message dict or of a message's content: a [str], or an
    object of another type given by what [str()] makes of it. *)
Inductive pyval :=
  | VStr (s : string)
  | VObj (shown : string).

#[global] Instance pyval_eq_dec : EqDecision pyval.
Proof. solve_decision. Defined.

(** [str(v)], also what an f-string makes of [v] *)
Definition py_str (v : pyval) : string :=
  match v with VStr s => s | VObj shown => shown end.

Definition nl : string := String (Ascii.ascii_of_nat 10) EmptyString.

(** [{"document": doc, "score": score, "index": i}] *)
Record scored := Scored { document : string; score : pyfloat; index : nat }.

(** [enumerate(l)] *)
Definition enumerate {A} (l : list A) : list (nat * A) := zip (seq 0 (length l)) l.

(** The stable sort into non-increasing scores, by insertion.  It compares
    keys with [<] only, and a record goes in front of the later records
    whose key is not larger. *)
Fixpoint insert_by_score (r : scored) (l : list scored) : list scored :=
  match l with
  | [] => [r]
  | x :: l' =>
      if float_lt (score r) (score x) then x :: insert_by_score r l'
      else r :: x :: l'
  end.

Definition sort_by_score_desc (l : list scored) : list scored :=
  foldr insert_by_score [] l.

(** No record is followed at once by one with a larger score. *)
Fixpoint no_ascent (l : list scored) : bool :=
  match l with
  | a :: l' =>
      match l' with
      | b :: _ => negb (float_lt (score a) (score b)) && no_ascent l'
      | [] => true
      end
  | [] => true
  end.

(** [list.sort(key=lambda x: x["score"], reverse=True)].  What the result is
    on scores that [<] does not order (NaN) depends on the runs and merges
    of the interpreter's algorithm, so the sort is an interface with the
    facts that hold of it on every list: the result is a permutation; when
    no score is NaN it is the stable sort into non-increasing scores; and a
    list in which no record is followed by a larger one is one run, which
    is left as it is. *)
Class ListSort := {
  list_sort_desc : list scored → list scored;
  list_sort_Permutation : ∀ l, list_sort_desc l ≡ₚ l;
  list_sort_ordered :
    ∀ l, Forall (λ r, score r ≠ FNaN) l → list_sort_desc l = sort_by_score_desc l;
  list_sort_run : ∀ l, no_ascent l = true → list_sort_desc l = l
}.

Lemma insert_by_score_Permutation r l : insert_by_score r l ≡ₚ r :: l.
Proof.
  induction l as [|x l IH]; cbn; [done|].
  destruct (float_lt (score r) (score x)); [|done].
  by rewrite IH, Permutation_swap.
Qed.

Lemma sort_by_score_desc_Permutation l : sort_by_score_desc l ≡ₚ l.
Proof.
  induction l as [|r l IH]; cbn; [done|].
  by rewrite insert_by_score_Permutation, IH.
Qed.

Lemma sort_by_score_desc_run l : no_ascent l = true → sort_by_score_desc l = l.
Proof.
  induction l as [|a l IH]; [done|]. intros Hrun.
  change (sort_by_score_desc (a :: l)) with (insert_by_score a (sort_by_score_desc l)).
  destruct l as [|b l]; [done|].
  cbn [no_ascent] in Hrun. apply andb_prop in Hrun as [Hab Hrun].
  rewrite (IH Hrun). cbn [insert_by_score].
  by destruct (float_lt (score a) (score b)).
Qed.

(** The sort by insertion is such a sort. *)
Definition insertion_sort : ListSort := {|
  list_sort_desc := sort_by_score_desc;
  list_sort_Permutation := sort_by_score_desc_Permutation;
  list_sort_ordered := λ l _, eq_refl;
  list_sort_run := sort_by_score_desc_run
|}.

Section client.
Context {provider : Provider} {builtins : Builtins} {sorter : ListSort}.

(** [self._deployment.predict(dr.Dataset.from_dataframe(pd.DataFrame([r])))]:
    building the one-row dataset and predicting on it is one call into the
    provider. *)
Definition predict_row (r : row) : M deployment prediction :=
  extcall (EvPredict r) (deployment_predict r).

Definition lift {A} (o : outcome A) : M deployment A := λ w, (o, w).

(** [str(p)] for an element of a prediction *)
Definition str_of_pvalue (p : pvalue) : string :=
  match p with PStr s => s | _ => py_repr p end.

(** [float(p)] *)
Definition py_float (p : pvalue) : outcome pyfloat :=
  match p with
  | PInt z => float_of_int z
  | PFloat x => Ret x
  | PStr s => py_float_of_str s
  | PVec _ =>
      Raise (Exn TypeError
        "float() argument must be a string or a real number, not 'list'")
  end.

(** ** DataRobotLLMClient *)

Definition predict (prompt : string) : M deployment string :=
  try_except
    (predictions ← predict_row (RowPrompt prompt);
     match predictions with
     | Some (p :: _) => mret (str_of_pvalue p)
     | _ => raise (Exn ValueError "No prediction returned from DataRobot")
     end)
    (λ e, logger_error ("DataRobot prediction failed: " +:+ exn_str e);; raise e).

(** The body of [for message in messages]. *)
Definition append_message (formatted_prompt : string) (message : gmap string pyval)
    : string :=
  let role := default (VStr "user") (message !! "role") in
  let content := default (VStr "") (message !! "content") in
  if bool_decide (role = VStr "system") then
    formatted_prompt +:+ "System: " +:+ py_str content +:+ nl
  else if bool_decide (role = VStr "user") then
    formatted_prompt +:+ "User: " +:+ py_str content +:+ nl
  else if bool_decide (role = VStr "assistant") then
    formatted_prompt +:+ "Assistant: " +:+ py_str content +:+ nl
  else formatted_prompt.

Definition _format_messages_to_prompt (messages : list (gmap string pyval)) : string :=
  foldl append_message "" messages +:+ "Assistant:".

Definition chat (messages : list (gmap string pyval)) : M deployment string :=
  let prompt := _format_messages_to_prompt messages in
  predict prompt.

(** ** DataRobotEmbeddingsClient *)

Definition no_embedding_error (text : string) : exn :=
  Exn ValueError ("No embedding returned for text: " +:+ String.substring 0 100 text +:+ "...").

(** [embedding = prediction[0]], decoded with [eval] when it is a string *)
Definition decode_embedding (p : pvalue) : outcome pvalue :=
  match p with PStr s => py_eval s | _ => Ret p end.

Fixpoint embed_each (texts : list string) (embeddings : list pvalue)
    : M deployment (list pvalue) :=
  match texts with
  | [] => mret embeddings
  | text :: rest =>
      prediction ← predict_row (RowText text);
      match prediction with
      | Some (p :: _) =>
          embedding ← lift (decode_embedding p);
          embed_each rest (embeddings ++ [embedding])
      | _ => raise (no_embedding_error text)
      end
  end.

Definition embed_documents (texts : list string) : M deployment (list pvalue) :=
  try_except (embed_each texts [])
    (λ e, logger_error ("DataRobot embeddings failed: " +:+ exn_str e);; raise e).

Definition embed_query (text : string) : M deployment pvalue :=
  embeddings ← embed_documents [text];
  mret (match embeddings with e0 :: _ => e0 | [] => PVec [] end).

(** ** DataRobotRerankClient *)

Fixpoint rerank_each (query : string) (docs : list (nat * string))
    (results : list scored) : M deployment (list scored) :=
  match docs with
  | [] => mret results
  | (i, doc) :: rest =>
      prediction ← predict_row (RowRerank query doc i);
      match prediction with
      | Some (p :: _) =>
          s ← lift (py_float p);
          rerank_each query rest (results ++ [Scored doc s i])
      | _ =>
          logger_warning ("No rerank score returned for document " +:+ pretty i);;
          rerank_each query rest results
      end
  end.

Definition rerank (query : string) (documents : list string) (top_k : option Z)
    : M deployment (list scored) :=
  try_except
    (results ← rerank_each query (enumerate documents) [];
     let results := list_sort_desc results in
     let results := match top_k with
                    | Some k => slice_to results k
                    | None => results
                    end in
     mret results)
    (λ e, logger_error ("DataRobot reranking failed: " +:+ exn_str e);; raise e).

(** *** Vocabulary of the properties *)

(** A prediction on which [prediction and len(prediction) > 0] is false. *)
Definition no_result (p : prediction) : Prop := p = None ∨ p = Some [].

(** [v] is the decoded first element of a prediction for [text]. *)
Definition embedding_of (text : string) (v : pvalue) : Prop :=
  ∃ s s' p rest,
    deployment_predict (RowText text) s = (Ret (Some (p :: rest)), s')
    ∧ decode_embedding p = Ret v.

(** [e] names [text], for which the provider had no result. *)
Definition names_offending_text (texts : list string) (e : exn) : Prop :=
  ∃ text s s' p,
    text ∈ texts
    ∧ deployment_predict (RowText text) s = (Ret p, s') ∧ no_result p
    ∧ e = no_embedding_error text.

(** [e] was raised by the prediction call for one of [texts], or by [eval]. *)
Definition raised_underneath (texts : list string) (e : exn) : Prop :=
  (∃ text s s', text ∈ texts ∧ deployment_predict (RowText text) s = (Raise e, s'))
  ∨ (∃ encoded, py_eval encoded = Raise e).




(** [embed_query] answers an empty prediction with the empty vector. *)
Definition soft_empty_query (text : string) (w : world deployment) : Prop :=
  ∀ p s',
    deployment_predict (RowText text) (ext w) = (Ret p, s') → no_result p →
    (embed_query text w).1 = Ret (PVec []).

(** The record [r] is made of an input document at its own index and of the
    score the provider gave for it. *)
Definition drawn_from (query : string) (documents : list string) (r : scored) : Prop :=
  documents !! index r = Some (document r)
  ∧ ∃ s s' p rest,
      deployment_predict (RowRerank query (document r) (index r)) s
      = (Ret (Some (p :: rest)), s')
      ∧ py_float p = Ret (score r).

(** [a] stands before [b] in a ranking: its score is larger, or the scores
    are equal and [a] was earlier in the input. *)
Definition ranked_before (a b : scored) : Prop :=
  float_lt (score b) (score a) = true
  ∨ (float_eq (score a) (score b) = true ∧ (index a < index b)%nat).




End client.

(** The role a message dict is read with, and whether a branch of
    [append_message] takes it. *)
Definition role_of (message : gmap string pyval) : pyval :=
  default (VStr "user") (message !! "role").

Definition recognized_role (role : pyval) : Prop :=
  role = VStr "system" ∨ role = VStr "user" ∨ role = VStr "assistant".

End DataRobotClient.

(** * src/common/datarobot_langchain.py *)

Module DataRobotLangchain.
Import DataRobotClient.

(** LangChain messages: the three classes [_generate] tests for, and any
    other subclass of [BaseMessage] (tool, function, chat, ...). *)
Inductive BaseMessage :=
  | SystemMessage (content : pyval)
  | HumanMessage (content : pyval)
  | AIMessage (content : pyval)
  | OtherMessage (type : string) (content : pyval).

Record ChatGeneration := MkChatGeneration { message : BaseMessage }.
Record ChatResult := MkChatResult { generations : list ChatGeneration }.

(** A value of a document's metadata dict. *)
Inductive meta :=
  | MetaStr (s : string)
  | MetaFloat (x : pyfloat)
  | MetaInt (z : Z).

(** [langchain_core.documents.Document] *)
Record Document := MkDocument {
  page_content : string;
  metadata : gmap string meta
}.

Section adapters.
Context {provider : Provider} {builtins : Builtins} {sorter : ListSort}.

(** ** DataRobotChatModel *)

(** The dict appended to [dr_messages] for one message. *)
Definition to_dr_message (m : BaseMessage) : gmap string pyval :=
  match m with
  | SystemMessage c => <["content" := c]> {["role" := VStr "system"]}
  | HumanMessage c => <["content" := c]> {["role" := VStr "user"]}
  | AIMessage c => <["content" := c]> {["role" := VStr "assistant"]}
  | OtherMessage _ c => <["content" := VStr (py_str c)]> {["role" := VStr "user"]}
  end.

Definition _generate (messages : list BaseMessage) : M deployment ChatResult :=
  try_except
    (let dr_messages := to_dr_message <$> messages in
     response ← chat dr_messages;
     let ai_message := AIMessage (VStr response) in
     mret (MkChatResult [MkChatGeneration ai_message]))
    (λ e, logger_error ("DataRobot chat generation failed: " +:+ exn_str e);; raise e).

(** [_stream] yields the one result of [_generate]. *)
Definition _stream (messages : list BaseMessage) : M deployment (list ChatResult) :=
  result ← _generate messages;
  mret [result].

(** ** DataRobotEmbeddings *)

Definition embeddings_embed_documents (texts : list string)
    : M deployment (list pvalue) :=
  embed_documents texts.

Definition embeddings_embed_query (text : string) : M deployment pvalue :=
  embed_query text.

(** ** DataRobotRerank *)

Section rerank.
Variable top_n : Z.

(** [for result in reranked_results: ...] *)
Fixpoint rebuild (documents : list Document) (reranked_results : list scored)
    (reranked_docs : list Document) : M deployment (list Document) :=
  match reranked_results with
  | [] => mret reranked_docs
  | result :: rest =>
      let doc_index := index result in
      match documents !! doc_index with
      | None => raise (Exn IndexError "list index out of range")
      | Some original_doc =>
          let new_doc :=
            MkDocument (page_content original_doc)
              (<["rerank_rank" := MetaInt (Z.of_nat (length reranked_docs) + 1)]>
                 (<["rerank_score" := MetaFloat (score result)]>
                    (metadata original_doc))) in
          rebuild documents rest (reranked_docs ++ [new_doc])
      end
  end.

Definition compress_documents (documents : list Document) (query : string)
    : M deployment (list Document) :=
  try_except
    (let texts := page_content <$> documents in
     reranked_results ← rerank query texts (Some top_n);
     rebuild documents reranked_results [])
    (λ e, logger_error ("DataRobot reranking failed: " +:+ exn_str e);;
          mret (slice_to documents top_n)).

End rerank.
End adapters.

(** The line a message adds to the prompt when it goes through [_generate]. *)
Definition prompt_line (m : BaseMessage) : string :=
  match m with
  | SystemMessage c => "System: " +:+ py_str c +:+ nl
  | HumanMessage c => "User: " +:+ py_str c +:+ nl
  | AIMessage c => "Assistant: " +:+ py_str c +:+ nl
  | OtherMessage _ c => "User: " +:+ py_str c +:+ nl
  end.

End DataRobotLangchain.

(** * Concrete collaborators

    Small services and configurations on which the models above run to a
    value. *)

Module Scenario.
Import Datastore AssistantClient DataRobotClient DataRobotLangchain.

(** A PostgreSQL server that refuses connections; histories hold strings. *)
Definition unreachable_postgres : Postgres string := {|
  PostgresClient := unit;
  PgResult := unit;
  PostgresClient_init := raise (Exn Exception "connection refused");
  pg_store_conversation := λ _ _ _ _ _, mret ();
  pg_fetch_conversation := λ _, mret ();
  pg_delete_conversation := λ _, mret ();
  pg_is_session := λ _, mret false
|}.

(** An assistant service that is down: every attempt is a connection error;
    the state counts the attempts. *)
Definition service_down : Session := {|
  session_state := nat;
  session_request := λ _ _ _ _ n,
    (Raise (Exn ConnectionError "connection refused"), S n)
|}.


Definition default_config (attempts : Z) (delay : Q) : AssistantConfig :=
  MkConfig "http://localhost:8000" 30 attempts (FNum delay).

(** [time.sleep] of CPython where the time type counts nanoseconds in 64
    bits: NaN is a [ValueError], a length of [2^63] nanoseconds or more an
    [OverflowError], a negative length a [ValueError]. *)
Definition clock_int64 : Clock := {|
  sleep_error := λ secs,
    match secs with
    | FNaN => Some (Exn ValueError "Invalid value NaN (not a number)")
    | FInf _ =>
        Some (Exn OverflowError "timestamp too large to convert to C _PyTime_t")
    | FNum q =>
        if Qle_bool (inject_Z (2 ^ 63)) (q * inject_Z (10 ^ 9))
           || Qle_bool (q * inject_Z (10 ^ 9)) (inject_Z (- 2 ^ 63))
        then Some (Exn OverflowError "timestamp too large to convert to C _PyTime_t")
        else if Qle_bool 0 q then None
        else Some (Exn ValueError "sleep length must be non-negative")
    end
|}.

(** A deployment that cannot be reached. *)
Definition provider_down : Provider := {|
  deployment := unit;
  deployment_predict := λ _ s, (Raise (Exn ConnectionError "connection refused"), s)
|}.

(** A deployment that echoes prompts, embeds a text as the one-element
    vector of its length, scores a document by its length, and has no
    result for the empty text or document. *)
Definition provider_by_length : Provider := {|
  deployment := unit;
  deployment_predict := λ r s,
    match r with
    | RowPrompt prompt => (Ret (Some [PStr prompt]), s)
    | RowText "" => (Ret (Some []), s)
    | RowText text =>
        (Ret (Some [PVec [FNum (inject_Z (Z.of_nat (String.length text)))]]), s)
    | RowRerank _ "" _ => (Ret (Some []), s)
    | RowRerank _ doc _ =>
        (Ret (Some [PFloat (FNum (inject_Z (Z.of_nat (String.length doc))))]), s)
    end
|}.


(** Built-ins that accept no string: the providers above send none. *)
Definition strict_builtins : Builtins := {|
  py_eval := λ _, Raise (Exn SyntaxError "invalid syntax");
  py_repr := λ _, "<value>";
  py_float_of_str := λ s,
    Raise (Exn ValueError ("could not convert string to float: '" +:+ s +:+ "'"))
|}.

Definition doc (text : string) : Document := MkDocument text ∅.

End Scenario.

(** * Further operations *)

(** ** src/common/assistant_client.py: clearing a conversation *)

Module AssistantApi.
Import AssistantClient.

Section api.
Context {session : Session} {clock : Clock}.
Variable config : AssistantConfig.


(** *** Vocabulary *)

(** [m] attempts in a row fail with a [RequestException] and take the
    service from state [s] to state [s']. *)
Inductive fails_for (method url : string) (data : option json)
    : nat → session_state → session_state → Prop :=
  | fails_for_O s : fails_for method url data O s s
  | fails_for_S m s e s1 s' :
      session_request method url data (timeout config) s = (Raise e, s1) →
      is_RequestException e = true →
      fails_for method url data m s1 s' →
      fails_for method url data (S m) s s'.

End api.
End AssistantApi.

(** Two more services: one refuses the first two attempts and then answers,
    one refuses the first attempt and then fails outside [requests]. *)
Module MoreScenario.
Import AssistantClient.

Definition service_flaky : Session := {|
  session_state := nat;
  session_request := λ _ _ _ _ n,
    if bool_decide (n < 2)%nat
    then (Raise (Exn ConnectionError "connection refused"), S n)
    else (Ret (JObj [("status", JStr "ok")]), S n)
|}.

Definition service_broken : Session := {|
  session_state := nat;
  session_request := λ _ _ _ _ n,
    if bool_decide (n < 1)%nat
    then (Raise (Exn ConnectionError "connection refused"), S n)
    else (Raise (Exn TypeError "Object of type set is not JSON serializable"), S n)
|}.

(** A deployment that answers every call with the string "high". *)
Definition provider_text_scores : DataRobotClient.Provider := {|
  DataRobotClient.deployment := unit;
  DataRobotClient.deployment_predict := λ _ s,
    (Ret (Some [DataRobotClient.PStr "high"]), s)
|}.

End MoreScenario.

(** ** Sequences of operations on the in-memory backend *)

Module DatastoreReplay.
Import Datastore.

Section replay.
Context {Turn : Type}.

Inductive store_op :=
  | OpStore (session_id : string) (uid : option string) (history : list Turn)
      (last_time start_time : string)
  | OpDelete (session_id : string).

Definition run_op (o : store_op) : M (MockDatabaseClient Turn) unit :=
  match o with
  | OpStore session_id uid history last_time start_time =>
      mock_store_conversation session_id uid history last_time start_time
  | OpDelete session_id => mock_delete_conversation session_id
  end.

Fixpoint run_ops (ops : list store_op) : M (MockDatabaseClient Turn) unit :=
  match ops with
  | [] => mret ()
  | o :: rest => run_op o;; run_ops rest
  end.

(** What the operations leave under [s]: what the last store on [s] put
    there, nothing after a later delete of [s], [init] when none touches
    [s]. *)
Fixpoint last_write (s : string) (ops : list store_op)
    (init : option (conversation Turn)) : option (conversation Turn) :=
  match ops with
  | [] => init
  | OpStore session_id uid history last_time start_time :: rest =>
      last_write s rest
        (if bool_decide (session_id = s)
         then Some (Conversation uid history last_time start_time) else init)
  | OpDelete session_id :: rest =>
      last_write s rest (if bool_decide (session_id = s) then None else init)
  end.

End replay.
Arguments store_op : clear implicits.
End DatastoreReplay.

(** ** Vocabulary for the inference clients *)

Module DataRobotVocabulary.
Import DataRobotClient.

Definition is_predict (ev : event) : bool :=
  match ev with EvPredict _ => true | _ => false end.

Definition is_warning (ev : event) : bool :=
  match ev with EvLog WARNING _ => true | _ => false end.

(** The scoring calls of [rerank] for [documents], in order. *)
Definition scoring_calls (query : string) (documents : list string) : list event :=
  (λ jd : nat * string, EvPredict (RowRerank query jd.2 jd.1)) <$> enumerate documents.

End DataRobotVocabulary.

(** * Properties *)

(** ** The monad *)

Section monad_facts.
Context {S : Type}.

Lemma run_bind {A B} (m : M S A) (f : A → M S B) w :
  (m ≫= f) w = match m w with
               | (Ret a, w') => f a w'
               | (Raise e, w') => (Raise e, w')
               end.
Proof. reflexivity. Qed.

Lemma run_bind_ret {A B} (m : M S A) (f : A → M S B) w a w' :
  m w = (Ret a, w') → (m ≫= f) w = f a w'.
Proof. intros Hm. by rewrite run_bind, Hm. Qed.

Lemma run_bind_raise {A B} (m : M S A) (f : A → M S B) w e w' :
  m w = (Raise e, w') → (m ≫= f) w = (Raise e, w').
Proof. intros Hm. by rewrite run_bind, Hm. Qed.

Lemma run_try_ret {A} (body : M S A) handler w a w' :
  body w = (Ret a, w') → try_except body handler w = (Ret a, w').
Proof. intros Hb. unfold try_except. by rewrite Hb. Qed.

Lemma run_try_raise {A} (body : M S A) handler w e w' :
  body w = (Raise e, w') → try_except body handler w = handler e w'.
Proof. intros Hb. unfold try_except. by rewrite Hb. Qed.

Lemma run_emit ev (w : world S) :
  emit ev w = (Ret (), World (ext w) (trace w ++ [ev])).
Proof. reflexivity. Qed.

Lemma world_eta (w : world S) : World (ext w) (trace w) = w.
Proof. by destruct w. Qed.

End monad_facts.

(** Unfolds the monad's operations in the goal and in the hypotheses. *)
Ltac unfold_M :=
  unfold mbind, M_bind, mret, M_ret, raise, try_except, print, logger_warning,
    logger_error, logger_info, emit, get_self, set_self, extcall in *;
  cbn [fst snd ext trace] in *.

(** ** Python built-ins *)

Lemma slice_to_nonneg {A} (l : list A) (k : Z) :
  (0 ≤ k)%Z → slice_to l k = take (Z.to_nat k) l.
Proof. intros Hk. unfold slice_to. by rewrite bool_decide_eq_true_2. Qed.

Lemma slice_to_prefix {A} (l : list A) (k : Z) : slice_to l k `prefix_of` l.
Proof. unfold slice_to. case_bool_decide; apply prefix_take. Qed.

Lemma slice_to_length_nonneg {A} (l : list A) (k : Z) :
  (0 ≤ k)%Z → (Z.of_nat (length (slice_to l k)) ≤ Z.of_nat (length l) `min` k)%Z.
Proof. intros Hk. rewrite slice_to_nonneg, length_take by done. lia. Qed.


Lemma range_nonpos (n : Z) : (n ≤ 0)%Z → range n = [].
Proof. intros Hn. unfold range. by replace (Z.to_nat n) with 0%nat by lia. Qed.

(** ** The conversation store *)

Module DatastoreFacts.
Import Datastore Scenario.

Section facts.
Context {Turn : Type} {pg : Postgres Turn}.
Implicit Types (c : MockDatabaseClient Turn) (tr : list event).
Implicit Types (session_id s t : string) (uid : option string).
Implicit Types (history : list Turn).

#[local] Ltac unfold_mock :=
  unfold mock_store_conversation, mock_fetch_conversation,
    mock_delete_conversation, mock_is_session in *;
  unfold_M; cbn [conversations] in *.

(** The in-memory backend round-trips: what [store_conversation] put under
    an id is what [fetch_conversation] returns for it. *)
Lemma mock_fetch_after_store session_id uid history last_time start_time c tr :
  ((mock_store_conversation session_id uid history last_time start_time;;
    mock_fetch_conversation session_id) (World c tr)).1
  = Ret (Some (Conversation uid history last_time start_time)).
Proof. unfold_mock. by rewrite lookup_insert_eq. Qed.

Lemma mock_fetch_after_delete session_id c tr :
  ((mock_delete_conversation session_id;;
    mock_fetch_conversation session_id) (World c tr)).1 = Ret None.
Proof.
  unfold_mock. case_bool_decide as Hin; cbn.
  - by rewrite lookup_delete_eq.
  - f_equal. by apply eq_None_not_Some.
Qed.

Lemma mock_is_session_after_store session_id uid history last_time start_time c tr :
  ((mock_store_conversation session_id uid history last_time start_time;;
    mock_is_session session_id) (World c tr)).1 = Ret true.
Proof. unfold_mock. by rewrite lookup_insert_eq, bool_decide_eq_true_2. Qed.

Lemma mock_is_session_after_delete session_id c tr :
  ((mock_delete_conversation session_id;;
    mock_is_session session_id) (World c tr)).1 = Ret false.
Proof.
  unfold_mock. case_bool_decide as Hin; cbn.
  - rewrite lookup_delete_eq. by rewrite bool_decide_eq_false_2 by apply is_Some_None.
  - by rewrite bool_decide_eq_false_2.
Qed.

(** The facade's [is_session] hands the backend's answer on. *)
Lemma is_session_of_mock session_id c tr :
  is_session session_id (World (MkDatastore (MockDB c)) tr)
  = (Ret (bool_decide (is_Some (conversations c !! session_id))),
     World (MkDatastore (MockDB c)) tr).
Proof. reflexivity. Qed.

(** The facade's [fetch_conversation] returns [None] whatever the backend
    holds. *)
Lemma fetch_conversation_of_mock session_id c tr :
  fetch_conversation session_id (World (MkDatastore (MockDB c)) tr)
  = (Ret None, World (MkDatastore (MockDB c)) tr).
Proof. reflexivity. Qed.

(** C1. Through the facade, [store_conversation] followed by
    [fetch_conversation] of the same session id returns [None] and not the
    stored history, for every session id, user id, history and timestamps;
    the in-memory backend behind it does return the conversation with the
    history supplied. *)
Theorem Datastore_fetch_after_store_returns_None
    session_id uid history last_time start_time c tr :
  ((store_conversation session_id uid history last_time start_time;;
    fetch_conversation session_id) (World (MkDatastore (MockDB c)) tr)).1
  = Ret None
  ∧ ((mock_store_conversation session_id uid history last_time start_time;;
      mock_fetch_conversation session_id) (World c tr)).1
    = Ret (Some (Conversation uid history last_time start_time)).
Proof. split; [reflexivity | apply mock_fetch_after_store]. Qed.

(** C8. [Datastore.__init__] raises [ValueError] in the constructor, with
    nothing printed or built, for every backend name other than "postgres"
    and "none"; "none" builds the in-memory backend with no conversation;
    "postgres" builds the [PostgresClient] and keeps it as the backend (and
    raises what that constructor raises). *)
Theorem Datastore_init_selects_backend (db_name : string) (w : world ()) :
  (db_name ≠ "postgres" → db_name ≠ "none" →
     Datastore_init db_name w
     = (Raise (Exn ValueError
          (db_name +:+ " database in not supported. Supported types: postgres, none")),
        w))
  ∧ Datastore_init "none" w
    = (Ret (MkDatastore (MockDB (Mock ∅))),
       World () (trace w ++
         [EvPrint "Using mock database for testing (no persistence)";
          EvPrint "Mock database initialized - no persistence"]))
  ∧ (∀ r w',
       PostgresClient_init
         (World () (trace w ++ [EvPrint "Using postgres to store conversation history"]))
       = (r, w') →
       Datastore_init "postgres" w
       = (match r with
          | Ret c => Ret (MkDatastore (PostgresDB c))
          | Raise e => Raise e
          end, w')).
Proof.
  split; [|split].
  - intros Hp Hn. unfold Datastore_init.
    by rewrite !bool_decide_eq_false_2.
  - unfold Datastore_init, MockDatabaseClient_init.
    rewrite bool_decide_eq_false_2, bool_decide_eq_true_2 by done.
    unfold_M. destruct w as [[] tr]. cbn. by rewrite <- app_assoc.
  - intros r w' Hinit. unfold Datastore_init.
    rewrite bool_decide_eq_true_2 by done.
    unfold_M. destruct w as [[] tr]. cbn in *. rewrite Hinit. by destruct r.
Qed.

(** C10. In the in-memory backend, [store_conversation] and
    [delete_conversation] on session [s] leave the entry of every other
    session [t] as it was, and [delete_conversation] of an absent session
    returns without raising and changes nothing. *)
Theorem mock_store_delete_frame s t uid history last_time start_time c tr :
  s ≠ t →
  conversations
    (ext (mock_store_conversation s uid history last_time start_time (World c tr)).2)
    !! t = conversations c !! t
  ∧ conversations (ext (mock_delete_conversation s (World c tr)).2) !! t
    = conversations c !! t
  ∧ (conversations c !! s = None →
     mock_delete_conversation s (World c tr) = (Ret (), World c tr)).
Proof.
  intros Hst. split; [|split].
  - unfold_mock. by apply lookup_insert_ne.
  - unfold_mock. case_bool_decide; cbn; [by apply lookup_delete_ne | done].
  - intros Hs. unfold_mock. rewrite Hs.
    by rewrite bool_decide_eq_false_2 by apply is_Some_None.
Qed.

End facts.

(** The scenario of the specification: backend kind "none", session "s1"
    stored with history ["hi"], then fetched through the facade. *)
Example scenario_none_s1 :
  (Datastore_init (pg := unreachable_postgres) "none" (World () [])).1
  = Ret (MkDatastore (MockDB (Mock ∅)))
  ∧ ((store_conversation "s1" None ["hi"] "t1" "t0";; fetch_conversation "s1")
       (World (MkDatastore (pg := unreachable_postgres) (MockDB (Mock ∅))) [])).1
    = Ret None.
Proof. split; reflexivity. Qed.

Lemma Datastore_init_selects_backend_witness :
  Datastore_init (pg := unreachable_postgres) "redis" (World () [])
  = (Raise (Exn ValueError
       "redis database in not supported. Supported types: postgres, none"),
     World () []).
Proof.
  apply (Datastore_init_selects_backend (pg := unreachable_postgres) "redis"
           (World () [])); discriminate.
Defined.

Lemma mock_store_delete_frame_witness :
  let c := Mock (Turn := string) {["b" := Conversation (Some "u") ["hi"] "t1" "t0"]} in
  "a" ≠ "b"
  ∧ conversations (ext (mock_store_conversation "a" None ["yo"] "t3" "t2" (World c [])).2)
      !! "b" = conversations c !! "b"
  ∧ conversations (ext (mock_delete_conversation "a" (World c [])).2) !! "b"
    = conversations c !! "b"
  ∧ mock_delete_conversation "a" (World c []) = (Ret (), World c []).
Proof.
  intros c.
  assert (Hne : "a" ≠ "b") by discriminate.
  destruct (mock_store_delete_frame "a" "b" None ["yo"] "t3" "t2" c [] Hne)
    as (Hstore & Hdelete & Habsent).
  split; [exact Hne |].
  split; [exact Hstore |].
  split; [exact Hdelete | apply Habsent; reflexivity].
Defined.

End DatastoreFacts.

(** ** The retrying transport *)

Module AssistantClientFacts.
Import AssistantClient Scenario.

Section facts.
Context {session : Session} {clock : Clock} (config : AssistantConfig).
Implicit Types (method url endpoint : string) (data : option json).
Implicit Types (w : world session_state) (attempt : Z) (todo : list Z).

(** A successful attempt ends the loop with the parsed body. *)
Lemma for_attempt_success method url data attempt todo w j s' :
  session_request method url data (timeout config) (ext w) = (Ret j, s') →
  for_attempt config method url data (attempt :: todo) w
  = (Ret (Some j),
     World s' (trace w ++ [EvRequest method url data (timeout config)])).
Proof.
  intros Hreq. cbn [for_attempt]. unfold attempt_once. unfold_M.
  by rewrite Hreq.
Qed.

(** A failed attempt that is not the last one: warning, sleep, next attempt. *)
Lemma for_attempt_retry method url data attempt todo w e s' :
  session_request method url data (timeout config) (ext w) = (Raise e, s') →
  is_RequestException e = true →
  (attempt < retry_attempts config - 1)%Z →
  sleep_error (retry_delay config) = None →
  for_attempt config method url data (attempt :: todo) w
  = for_attempt config method url data todo
      (World s' (trace w ++
         [EvRequest method url data (timeout config);
          EvLog WARNING ("Request attempt " +:+ pretty (attempt + 1)%Z
                         +:+ " failed: " +:+ exn_str e);
          EvSleep (retry_delay config)])).
Proof.
  intros Hreq Hcls Hlt Hdelay.
  cbn [for_attempt]. unfold attempt_once. unfold_M. rewrite Hreq.
  unfold on_request_failure, time_sleep.
  rewrite Hcls, Hdelay, bool_decide_eq_true_2 by done.
  unfold_M. by rewrite <- !app_assoc.
Qed.

(** The failed last attempt: warning, then the aggregated error. *)
Lemma for_attempt_last method url data attempt todo w e s' :
  session_request method url data (timeout config) (ext w) = (Raise e, s') →
  is_RequestException e = true →
  ¬ (attempt < retry_attempts config - 1)%Z →
  for_attempt config method url data (attempt :: todo) w
  = (Raise (Exn Exception ("All " +:+ pretty (retry_attempts config)
                           +:+ " attempts failed: " +:+ exn_str e)),
     World s' (trace w ++
       [EvRequest method url data (timeout config);
        EvLog WARNING ("Request attempt " +:+ pretty (attempt + 1)%Z
                       +:+ " failed: " +:+ exn_str e)])).
Proof.
  intros Hreq Hcls Hlt.
  cbn [for_attempt]. unfold attempt_once. unfold_M. rewrite Hreq.
  unfold on_request_failure.
  rewrite Hcls, bool_decide_eq_false_2 by done.
  unfold_M. by rewrite <- !app_assoc.
Qed.

(** An exception that is no [RequestException] leaves the loop at once. *)
Lemma for_attempt_other_exception method url data attempt todo w e s' :
  session_request method url data (timeout config) (ext w) = (Raise e, s') →
  is_RequestException e = false →
  for_attempt config method url data (attempt :: todo) w
  = (Raise e, World s' (trace w ++ [EvRequest method url data (timeout config)])).
Proof.
  intros Hreq Hcls.
  cbn [for_attempt]. unfold attempt_once. unfold_M. rewrite Hreq.
  unfold on_request_failure. rewrite Hcls. by unfold_M.
Qed.

Lemma for_attempt_all_fail method url data :
  always_fails →
  ((2 ≤ retry_attempts config)%Z → sleep_error (retry_delay config) = None) →
  ∀ (n i : nat) w,
    (Z.of_nat i + Z.of_nat (S n) = retry_attempts config)%Z →
    ∃ e s_last w',
      for_attempt config method url data (Z.of_nat <$> seq i (S n)) w
      = (Raise (Exn Exception ("All " +:+ pretty (retry_attempts config)
                               +:+ " attempts failed: " +:+ exn_str e)), w')
      ∧ session_request method url data (timeout config) s_last = (Raise e, ext w')
      ∧ ∃ evs,
          trace w' = trace w ++ evs
          ∧ List.filter is_attempt_or_sleep evs
            = retry_pattern (EvRequest method url data (timeout config))
                (retry_delay config) (S n).
Proof.
  intros Hfail Hdelay. induction n as [|n IH]; intros i w Hk.
  - destruct (Hfail method url data (timeout config) (ext w)) as (e & s' & Hreq & Hcls).
    exists e, (ext w). eexists. split; [|split].
    + cbn [seq fmap list_fmap]. apply for_attempt_last; [done..|lia].
    + done.
    + eexists. split; [reflexivity | reflexivity].
  - destruct (Hfail method url data (timeout config) (ext w)) as (e & s' & Hreq & Hcls).
    change (seq i (S (S n))) with (i :: seq (S i) (S n)). rewrite fmap_cons.
    rewrite (for_attempt_retry _ _ _ _ _ _ e s') by (done || lia || (apply Hdelay; lia)).
    edestruct (IH (S i)) as (e' & s_last & w' & Hrun & Hlast & evs & Htr & Hpat);
      [lia|].
    exists e', s_last, w'. split; [exact Hrun | split; [exact Hlast |]].
    eexists. split.
    + rewrite Htr. cbn [trace]. rewrite <- app_assoc. reflexivity.
    + rewrite List.filter_app, Hpat. reflexivity.
Qed.

(** C2, amended. For every [retry_attempts = k ≥ 1] and, when [k ≥ 2],
    every delay that [time.sleep] accepts, a call whose every attempt fails
    with a [RequestException] makes exactly [k] attempts, sleeps the
    configured delay between consecutive attempts and not after the last,
    and then raises one [Exception] whose text names [k] and the failure of
    the last attempt; it returns no response. *)
Theorem make_request_exhausts_retries method endpoint data w :
  (1 ≤ retry_attempts config)%Z →
  ((2 ≤ retry_attempts config)%Z → sleep_error (retry_delay config) = None) →
  always_fails →
  exhausts_retries config method endpoint data w.
Proof.
  intros Hk Hdelay Hfail. unfold exhausts_retries, _make_request, range.
  destruct (Z.to_nat (retry_attempts config)) as [|n] eqn:Hn; [lia|].
  apply for_attempt_all_fail; [done..|lia].
Qed.

(** C9. With [retry_attempts = 0] the loop body never runs: no request is
    made, nothing is logged or slept, and the call returns [None] without
    raising, for every method, endpoint and payload. *)
Theorem make_request_zero_attempts method endpoint data w :
  retry_attempts config = 0%Z →
  _make_request config method endpoint data w = (Ret None, w).
Proof.
  intros Hzero. unfold _make_request. rewrite Hzero. reflexivity.
Qed.

(** A negative [retry_attempts] behaves like 0. *)
Lemma make_request_no_attempts method endpoint data w :
  (retry_attempts config ≤ 0)%Z →
  _make_request config method endpoint data w = (Ret None, w).
Proof.
  intros Hle. unfold _make_request. by rewrite range_nonpos.
Qed.

End facts.

Lemma service_down_always_fails : always_fails (session := service_down).
Proof. intros method url data tmo s. by eexists _, _. Qed.

(** C2 as stated fails on a delay that [time.sleep] rejects: with two
    attempts configured and the service down, the first failure is followed
    by [time.sleep(-1)], whose [ValueError] ends the call after one
    attempt. *)
Lemma make_request_negative_delay :
  always_fails (session := service_down)
  ∧ (1 ≤ retry_attempts (default_config 2 (-1)))%Z
  ∧ _make_request (session := service_down) (clock := clock_int64)
      (default_config 2 (-1)) "GET" "/health" None (World 0%nat [])
    = (Raise (Exn ValueError "sleep length must be non-negative"),
       World 1%nat
         [EvRequest "GET" "http://localhost:8000/health" None 30;
          EvLog WARNING "Request attempt 1 failed: connection refused"])
  ∧ ¬ exhausts_retries (session := service_down) (clock := clock_int64)
        (default_config 2 (-1)) "GET" "/health" None (World 0%nat []).
Proof.
  split; [exact service_down_always_fails |]. split; [done |].
  assert (Hrun : _make_request (session := service_down) (clock := clock_int64)
                   (default_config 2 (-1)) "GET" "/health" None (World 0%nat [])
                 = (Raise (Exn ValueError "sleep length must be non-negative"),
                    World 1%nat
                      [EvRequest "GET" "http://localhost:8000/health" None 30;
                       EvLog WARNING "Request attempt 1 failed: connection refused"]))
    by (vm_compute; reflexivity).
  split; [exact Hrun |].
  intros (e & s_last & w' & Hraise & _). rewrite Hrun in Hraise. discriminate.
Qed.

Lemma make_request_exhausts_retries_witness :
  exhausts_retries (session := service_down) (clock := clock_int64)
    (default_config 3 1) "GET" "/health" None (World 0%nat []).
Proof.
  apply (make_request_exhausts_retries (session := service_down)
           (clock := clock_int64) (default_config 3 1) "GET" "/health" None
           (World 0%nat [])).
  - cbn. lia.
  - intros _. reflexivity.
  - exact service_down_always_fails.
Defined.

(** A delay of 10^10 seconds is rejected too: one attempt, then the
    [OverflowError] of [time.sleep]. *)
Example make_request_huge_delay :
  (_make_request (session := service_down) (clock := clock_int64)
     (default_config 2 (10 ^ 10)) "GET" "/health" None (World 0%nat [])).1
  = Raise (Exn OverflowError "timestamp too large to convert to C _PyTime_t").
Proof. vm_compute. reflexivity. Qed.

Lemma make_request_zero_attempts_witness :
  _make_request (session := service_down) (clock := clock_int64)
    (default_config 0 1)
    "POST" "/chat" (Some (JObj [("message", JStr "hi")])) (World 0%nat [])
  = (Ret None, World 0%nat []).
Proof.
  apply (make_request_zero_attempts (session := service_down)
           (clock := clock_int64) (default_config 0 1)).
  reflexivity.
Defined.

End AssistantClientFacts.

(** ** The inference clients *)

Module DataRobotClientFacts.
Import DataRobotClient Scenario.

(** *** Flattening of chat messages *)

Lemma format_messages_app (before after : list (gmap string pyval)) :
  _format_messages_to_prompt (before ++ after)
  = foldl append_message (foldl append_message "" before) after +:+ "Assistant:".
Proof. unfold _format_messages_to_prompt. by rewrite foldl_app. Qed.

(** A message whose role is none of the three adds nothing to the prompt. *)
Lemma append_message_unrecognized prompt (message : gmap string pyval) :
  ¬ recognized_role (role_of message) → append_message prompt message = prompt.
Proof.
  unfold recognized_role, role_of, append_message. intros Hrole.
  rewrite !bool_decide_eq_false_2; [done | naive_solver..].
Qed.

(** C6. [_format_messages_to_prompt] drops every message whose role is not
    "system", "user" or "assistant": the prompt is the one of the list
    without that message, so the message is not coerced to role "user" and
    does not appear. *)
Theorem format_messages_drops_unrecognized_role
    (before after : list (gmap string pyval)) (message : gmap string pyval) :
  ¬ recognized_role (role_of message) →
  _format_messages_to_prompt (before ++ message :: after)
  = _format_messages_to_prompt (before ++ after).
Proof.
  intros Hrole. rewrite !format_messages_app. cbn [foldl].
  by rewrite append_message_unrecognized.
Qed.

Lemma format_messages_drops_unrecognized_role_witness :
  _format_messages_to_prompt
    ([ <["content" := VStr "be terse"]> {["role" := VStr "system"]} ]
     ++ <["content" := VStr "42"]> {["role" := VStr "tool"]}
     :: [ <["content" := VStr "2+2?"]> {["role" := VStr "user"]} ])
  = _format_messages_to_prompt
      ([ <["content" := VStr "be terse"]> {["role" := VStr "system"]} ]
       ++ [ <["content" := VStr "2+2?"]> {["role" := VStr "user"]} ]).
Proof.
  apply (format_messages_drops_unrecognized_role
           [ <["content" := VStr "be terse"]> {["role" := VStr "system"]} ]
           [ <["content" := VStr "2+2?"]> {["role" := VStr "user"]} ]
           (<["content" := VStr "42"]> {["role" := VStr "tool"]})).
  unfold recognized_role, role_of. vm_compute. intros [H | [H | H]]; discriminate H.
Defined.

(** The scenario of the specification, and a lone tool message. *)
Example format_system_user :
  _format_messages_to_prompt
    [ <["content" := VStr "be terse"]> {["role" := VStr "system"]};
      <["content" := VStr "2+2?"]> {["role" := VStr "user"]} ]
  = "System: be terse" +:+ nl +:+ "User: 2+2?" +:+ nl +:+ "Assistant:".
Proof. reflexivity. Qed.

Example format_tool_message :
  _format_messages_to_prompt [ <["content" := VStr "42"]> {["role" := VStr "tool"]} ]
  = "Assistant:".
Proof. reflexivity. Qed.

(** *** Floats *)

Lemma float_lt_num x y : float_lt (FNum x) (FNum y) = true ↔ (x < y)%Q.
Proof. cbn. rewrite Qlt_alt. destruct (x ?= y)%Q; naive_solver. Qed.

Lemma float_eq_num x y : float_eq (FNum x) (FNum y) = true ↔ (x == y)%Q.
Proof. apply Qeq_bool_iff. Qed.

Lemma float_lt_num_false x y : float_lt (FNum x) (FNum y) = false ↔ (y <= x)%Q.
Proof.
  split.
  - intros Hf. apply Qnot_lt_le. intros Hlt%float_lt_num. congruence.
  - intros Hle. destruct (float_lt (FNum x) (FNum y)) eqn:Hlt; [|done].
    apply float_lt_num in Hlt. by apply Qlt_not_le in Hlt.
Qed.

(** Case analysis on the floats of the context, down to rationals. *)
Ltac float_cases :=
  repeat match goal with f : pyfloat |- _ => destruct f as [|[]|?] end;
  rewrite ?float_lt_num, ?float_eq_num, ?float_lt_num_false in *;
  try done.

Lemma float_lt_trans a b c :
  float_lt a b = true → float_lt b c = true → float_lt a c = true.
Proof. float_cases. all: apply Qlt_trans. Qed.

Lemma float_lt_asym a b : float_lt a b = true → float_lt b a = true → False.
Proof.
  float_cases. all: intros H1 H2; eapply Qlt_irrefl, Qlt_trans; eassumption.
Qed.

Lemma float_eq_sym a b : float_eq a b = true → float_eq b a = true.
Proof. float_cases. all: by intros ->. Qed.

Lemma float_eq_trans a b c :
  float_eq a b = true → float_eq b c = true → float_eq a c = true.
Proof. float_cases. all: by intros -> ->. Qed.

Lemma float_lt_eq_trans a b c :
  float_lt a b = true → float_eq b c = true → float_lt a c = true.
Proof. float_cases. all: by intros ? <-. Qed.

Lemma float_eq_lt_trans a b c :
  float_eq a b = true → float_lt a c = true → float_lt b c = true.
Proof. float_cases. all: by intros <-. Qed.

Lemma float_lt_not_eq a b : float_lt a b = true → float_eq a b = true → False.
Proof. float_cases. all: intros Hlt Heq; by apply Qlt_not_eq in Hlt. Qed.

Lemma float_total a b :
  a ≠ FNaN → b ≠ FNaN → float_lt a b = false →
  float_lt b a = true ∨ float_eq a b = true.
Proof.
  float_cases; intros _ _; auto.
  all: intros Hle; destruct (Qle_lt_or_eq _ _ Hle) as [?|Heq]; [by left | right].
  all: by symmetry.
Qed.

Example float_of_int_exact : float_of_int 3 = Ret (FNum 3).
Proof. reflexivity. Qed.
Example float_of_int_tie : float_of_int (2 ^ 53 + 1) = Ret (FNum (inject_Z (2 ^ 53))).
Proof. vm_compute. reflexivity. Qed.
Example float_of_int_up : float_of_int (2 ^ 53 + 3) = Ret (FNum (inject_Z (2 ^ 53 + 4))).
Proof. vm_compute. reflexivity. Qed.
Example float_of_int_neg : float_of_int (- (2 ^ 53 + 3)) = Ret (FNum (inject_Z (- (2 ^ 53 + 4)))).
Proof. vm_compute. reflexivity. Qed.
Example float_of_int_huge :
  float_of_int (10 ^ 400) = Raise (Exn OverflowError "int too large to convert to float").
Proof. vm_compute. reflexivity. Qed.
Example float_of_int_max : float_of_int (2^1024 - 2^970 - 1) = Ret (FNum (inject_Z (2^1024 - 2^971))).
Proof. vm_compute. reflexivity. Qed.
Example float_of_int_over : float_of_int (2^1024 - 2^970) = Raise (Exn OverflowError "int too large to convert to float").
Proof. vm_compute. reflexivity. Qed.

(** *** The stable sort by score *)


Lemma list_sort_desc_length {sorter : ListSort} l :
  length (list_sort_desc l) = length l.
Proof. apply Permutation_length, list_sort_Permutation. Qed.

(** Inserting a record that was earlier in the input than all of [l],
    when no score is NaN. *)
Lemma insert_by_score_ranked r l :
  score r ≠ FNaN →
  Forall (λ x, score x ≠ FNaN) l →
  Forall (λ x, (index r < index x)%nat) l →
  StronglySorted ranked_before l →
  StronglySorted ranked_before (insert_by_score r l).
Proof.
  intros Hr. induction l as [|x l IH]; intros Hnan Hidx Hsorted; cbn.
  { repeat constructor. }
  apply Forall_cons in Hnan as [Hx_nan Hnan].
  apply Forall_cons in Hidx as [Hx Hidx].
  apply StronglySorted_cons in Hsorted as [Hxl Hsorted].
  destruct (float_lt (score r) (score x)) eqn:Hlt.
  - apply StronglySorted_cons. split; [|by apply IH].
    rewrite insert_by_score_Permutation. constructor; [by left | done].
  - assert (Hrx : ranked_before r x).
    { destruct (float_total _ _ Hr Hx_nan Hlt) as [?|Heq]; [by left | by right]. }
    apply StronglySorted_cons. split; [|by apply StronglySorted_cons].
    constructor; [done|].
    rewrite Forall_forall in Hxl, Hidx |- *. intros y Hy.
    destruct Hrx as [Hxr | [Hrx _]], (Hxl y Hy) as [Hyx | [Hxy _]].
    + left. by eapply float_lt_trans.
    + left. by eapply float_eq_lt_trans.
    + left. eapply float_lt_eq_trans; [done|]. by apply float_eq_sym.
    + right. split; [by eapply float_eq_trans | by apply Hidx].
Qed.

(** Sorting records without NaN score that come in the order of their
    indices ranks them: larger scores first, equal scores in the order of
    the input. *)
Lemma sort_by_score_desc_ranked l :
  Forall (λ x, score x ≠ FNaN) l →
  StronglySorted (λ a b, (index a < index b)%nat) l →
  StronglySorted ranked_before (sort_by_score_desc l).
Proof.
  induction l as [|r l IH]; intros Hnan Hsorted; cbn.
  { constructor. }
  apply Forall_cons in Hnan as [Hr Hnan].
  apply StronglySorted_cons in Hsorted as [Hrl Hsorted].
  apply insert_by_score_ranked; [done | | | by apply IH].
  - by rewrite sort_by_score_desc_Permutation.
  - by rewrite sort_by_score_desc_Permutation.
Qed.

(** The ranking of a list is determined: a permutation that is ranked is
    the sorted list, whatever stable algorithm produced it. *)
Lemma sort_by_score_desc_unique l l' :
  Forall (λ x, score x ≠ FNaN) l →
  StronglySorted (λ a b, (index a < index b)%nat) l →
  l' ≡ₚ l → StronglySorted ranked_before l' →
  l' = sort_by_score_desc l.
Proof.
  intros Hnan Hord Hperm Hranked.
  apply (StronglySorted_unique_strong ranked_before); [|done|..].
  - intros a b _ _ [Hab | [Heq Hab]] [Hba | [Heq' Hba]].
    + by destruct (float_lt_asym _ _ Hab Hba).
    + by destruct (float_lt_not_eq _ _ Hab Heq').
    + by destruct (float_lt_not_eq _ _ Hba Heq).
    + lia.
  - by apply sort_by_score_desc_ranked.
  - by rewrite sort_by_score_desc_Permutation.
Qed.




Lemma Forall_prefix {A} (P : A → Prop) l1 l2 :
  l1 `prefix_of` l2 → Forall P l2 → Forall P l1.
Proof. intros [suffix ->]. by intros [? _]%Forall_app. Qed.

(** *** Embeddings *)

Section embeddings.
Context {provider : Provider} {builtins : Builtins}.
Implicit Types (texts : list string) (w : world deployment).
Implicit Types (embeddings vs : list pvalue).

Lemma decode_embedding_raise p e :
  decode_embedding p = Raise e → ∃ encoded, py_eval encoded = Raise e.
Proof. destruct p; cbn; [done | done | eauto | done]. Qed.

(** The loop either extends [embeddings] by one embedding per text, in
    order, or raises; it never returns with fewer. *)
Lemma embed_each_spec texts :
  ∀ embeddings w,
    match embed_each texts embeddings w with
    | (Ret vs, w') =>
        ∃ new, vs = embeddings ++ new
               ∧ Forall2 embedding_of texts new
               ∧ trace w' = trace w ++ ((λ text, EvPredict (RowText text)) <$> texts)
    | (Raise e, _) => names_offending_text texts e ∨ raised_underneath texts e
    end.
Proof.
  induction texts as [|text rest IH]; intros embeddings w; cbn [embed_each].
  { unfold_M. exists []. by rewrite !app_nil_r. }
  unfold predict_row, lift. unfold_M.
  destruct (deployment_predict (RowText text) (ext w)) as [[p|e] s'] eqn:Hp.
  - destruct p as [[|x xs]|].
    + left. exists text, (ext w), s', (Some []).
      split_and!; [by left | done | by right | done].
    + destruct (decode_embedding x) as [v|e] eqn:Hdecode.
      * specialize (IH (embeddings ++ [v])
                       (World s' (trace w ++ [EvPredict (RowText text)]))).
        destruct (embed_each rest (embeddings ++ [v]) _) as [[vs|e] w'].
        -- destruct IH as (new & -> & Hnew & Htrace).
           exists (v :: new). split_and!.
           ++ by rewrite <- app_assoc.
           ++ constructor; [|done]. by exists (ext w), s', x, xs.
           ++ rewrite Htrace. cbn. by rewrite <- app_assoc.
        -- destruct IH as [(t & s & s1 & p & Hin & ?) | [(t & s & s1 & Hin & ?) | ?]].
           ++ left. exists t, s, s1, p. split; [by right | done].
           ++ right. left. exists t, s, s1. split; [by right | done].
           ++ right. by right.
      * right. right. by eapply decode_embedding_raise.
    + left. exists text, (ext w), s', None.
      split_and!; [by left | done | by left | done].
  - right. left. exists text, (ext w), s'. split; [by left | done].
Qed.

Lemma embed_documents_ret_length texts w vs w' :
  embed_documents texts w = (Ret vs, w') → length vs = length texts.
Proof.
  unfold embed_documents, try_except. intros Hrun.
  pose proof (embed_each_spec texts [] w) as Hloop.
  destruct (embed_each texts [] w) as [[vs0|e] w0]; [|unfold_M; discriminate Hrun].
  injection Hrun as -> ->. destruct Hloop as (new & -> & Hnew & _).
  symmetry. by eapply Forall2_length.
Qed.


(** A text without result makes [embed_documents] on it alone raise. *)
Lemma embed_documents_single_no_result text w p s' :
  deployment_predict (RowText text) (ext w) = (Ret p, s') → no_result p →
  (embed_documents [text] w).1 = Raise (no_embedding_error text).
Proof.
  intros Hp Hnone. unfold embed_documents. cbn [embed_each].
  unfold predict_row. unfold_M. rewrite Hp.
  by destruct Hnone as [-> | ->].
Qed.

(** C7, amended. [embed_query(text)] is the first element of
    [embed_documents([text])] when that call returns, and raises what that
    call raises; the empty vector would be returned for an empty list, which
    [embed_documents([text])] never returns.  When the provider has no result
    for the text, [embed_query] raises the [ValueError] naming the text, as
    [embed_documents] does. *)
Theorem embed_query_first_or_raises text w :
  embed_query text w
  = match embed_documents [text] w with
    | (Ret (v :: _), w') => (Ret v, w')
    | (Ret [], w') => (Ret (PVec []), w')
    | (Raise e, w') => (Raise e, w')
    end
  ∧ (∀ w', embed_documents [text] w ≠ (Ret [], w'))
  ∧ (∀ p s',
       deployment_predict (RowText text) (ext w) = (Ret p, s') → no_result p →
       (embed_query text w).1 = Raise (no_embedding_error text)).
Proof.
  split_and!.
  - unfold embed_query. rewrite run_bind.
    by destruct (embed_documents [text] w) as [[[|v vs]|e] w'].
  - intros w' Hrun. by apply embed_documents_ret_length in Hrun.
  - intros p s' Hp Hnone. unfold embed_query. rewrite run_bind.
    pose proof (embed_documents_single_no_result text w p s' Hp Hnone) as Hraise.
    destruct (embed_documents [text] w) as [[vs|e] w']; cbn in Hraise; [done|].
    by inversion Hraise.
Qed.

End embeddings.


(** C7 as stated fails on a text for which the provider has no result:
    [embed_documents] fails on a list with that text, and [embed_query]
    raises the same error instead of returning the empty vector. *)
Lemma embed_query_no_result_raises :
  deployment_predict (Provider := provider_by_length) (RowText "") () = (Ret (Some []), ())
  ∧ (embed_documents (provider := provider_by_length) (builtins := strict_builtins)
       ["hello"; ""] (World () [])).1 = Raise (no_embedding_error "")
  ∧ (embed_query (provider := provider_by_length) (builtins := strict_builtins)
       "" (World () [])).1 = Raise (no_embedding_error "")
  ∧ ¬ soft_empty_query (provider := provider_by_length) (builtins := strict_builtins)
        "" (World () []).
Proof.
  split_and!; [reflexivity..|].
  intros Hsoft. specialize (Hsoft (Some []) () eq_refl (or_intror eq_refl)).
  discriminate Hsoft.
Qed.

Lemma embed_query_first_or_raises_witness :
  (embed_query (provider := provider_by_length) (builtins := strict_builtins)
     "" (World () [])).1 = Raise (no_embedding_error "").
Proof.
  destruct (embed_query_first_or_raises (provider := provider_by_length)
              (builtins := strict_builtins) "" (World () []))
    as (_ & _ & Hraise).
  apply (Hraise (Some []) ()).
  - reflexivity.
  - right. reflexivity.
Defined.

Example embed_query_hello :
  (embed_query (provider := provider_by_length) (builtins := strict_builtins)
     "hello" (World () [])).1 = Ret (PVec [FNum 5]).
Proof. reflexivity. Qed.

(** *** Reranking *)

Lemma enumerate_from_spec {A} (l : list A) (i : nat) :
  StronglySorted (λ a b : nat * A, (a.1 < b.1)%nat) (zip (seq i (length l)) l)
  ∧ Forall (λ jd : nat * A, (i ≤ jd.1)%nat ∧ l !! (jd.1 - i)%nat = Some jd.2)
      (zip (seq i (length l)) l).
Proof.
  revert i. induction l as [|x l IH]; intros i; cbn.
  { split; constructor. }
  destruct (IH (S i)) as [Hsorted Hall]. split.
  - constructor; [done|].
    eapply Forall_impl; [exact Hall|]. intros [j d] [Hj _]. cbn in *. lia.
  - constructor.
    + cbn. split; [lia|]. by rewrite Nat.sub_diag.
    + eapply Forall_impl; [exact Hall|]. intros [j d] [Hj Hd]. cbn in *.
      split; [lia|]. by replace (j - i)%nat with (S (j - S i)) by lia.
Qed.

Lemma enumerate_spec {A} (l : list A) :
  StronglySorted (λ a b : nat * A, (a.1 < b.1)%nat) (enumerate l)
  ∧ Forall (λ jd : nat * A, l !! jd.1 = Some jd.2) (enumerate l).
Proof.
  destruct (enumerate_from_spec l 0) as [Hsorted Hall]. split; [done|].
  eapply Forall_impl; [exact Hall|]. intros [j d] [_ Hd]. cbn in *.
  by rewrite Nat.sub_0_r in Hd.
Qed.

Lemma enumerate_length {A} (l : list A) : length (enumerate l) = length l.
Proof. unfold enumerate. rewrite length_zip, length_seq. lia. Qed.

Section rerank.
Context {provider : Provider} {builtins : Builtins} {sorter : ListSort}.
Implicit Types (query : string) (documents : list string).
Implicit Types (docs : list (nat * string)) (results out : list scored).
Implicit Types (w : world deployment).

(** A document without score: a warning, and the loop goes on with the
    results it had. *)
Lemma rerank_each_skip query i doc docs results w p s' :
  deployment_predict (RowRerank query doc i) (ext w) = (Ret p, s') →
  no_result p →
  rerank_each query ((i, doc) :: docs) results w
  = rerank_each query docs results
      (World s' (trace w ++
         [EvPredict (RowRerank query doc i);
          EvLog WARNING ("No rerank score returned for document " +:+ pretty i)])).
Proof.
  intros Hp Hnone. cbn [rerank_each]. unfold predict_row. unfold_M. rewrite Hp.
  destruct Hnone as [-> | ->]; cbn [ext trace]; by rewrite <- app_assoc.
Qed.

(** A scored document: its record is appended to the results. *)
Lemma rerank_each_scored query i doc docs results w x xs s' q :
  deployment_predict (RowRerank query doc i) (ext w) = (Ret (Some (x :: xs)), s') →
  py_float x = Ret q →
  rerank_each query ((i, doc) :: docs) results w
  = rerank_each query docs (results ++ [Scored doc q i])
      (World s' (trace w ++ [EvPredict (RowRerank query doc i)])).
Proof.
  intros Hp Hfloat. cbn [rerank_each]. unfold predict_row, lift. unfold_M.
  by rewrite Hp, Hfloat.
Qed.

Lemma rerank_each_spec query documents docs :
  ∀ results w out w',
    StronglySorted (λ a b : nat * string, (a.1 < b.1)%nat) docs →
    Forall (λ jd : nat * string, documents !! jd.1 = Some jd.2) docs →
    rerank_each query docs results w = (Ret out, w') →
    ∃ new,
      out = results ++ new
      ∧ Forall (drawn_from query documents) new
      ∧ Forall (λ r, index r ∈ docs.*1) new
      ∧ StronglySorted (λ a b, (index a < index b)%nat) new
      ∧ (length new ≤ length docs)%nat.
Proof.
  induction docs as [|[i doc] docs IH]; intros results w out w' Hsorted Hin Hrun.
  { cbn in Hrun. unfold_M. injection Hrun as <- <-. exists [].
    rewrite app_nil_r. split_and!; by try constructor. }
  apply StronglySorted_cons in Hsorted as [Hhead Hsorted].
  apply Forall_cons in Hin as [Hdoc Hin]. cbn in Hdoc.
  destruct (deployment_predict (RowRerank query doc i) (ext w)) as [[p|e] s'] eqn:Hp.
  - destruct p as [[|x xs]|].
    + rewrite (rerank_each_skip _ _ _ _ _ _ _ _ Hp) in Hrun by (by right).
      destruct (IH _ _ _ _ Hsorted Hin Hrun) as (new & -> & Hnew & Hidx & Hord & Hlen).
      exists new. split_and!; [done | done | | done | cbn; lia].
      eapply Forall_impl; [exact Hidx|]. intros r Hr. cbn. by right.
    + destruct (py_float x) as [q|e] eqn:Hfloat.
      * rewrite (rerank_each_scored _ _ _ _ _ _ _ _ _ _ Hp Hfloat) in Hrun.
        destruct (IH _ _ _ _ Hsorted Hin Hrun) as (new & -> & Hnew & Hidx & Hord & Hlen).
        exists (Scored doc q i :: new). split_and!.
        -- by rewrite <- app_assoc.
        -- constructor; [|done]. split; [done|]. by exists (ext w), s', x, xs.
        -- constructor; [cbn; by left|].
           eapply Forall_impl; [exact Hidx|]. intros r Hr. cbn. by right.
        -- constructor; [done|]. apply Forall_forall. intros r Hr. cbn.
           pose proof (proj1 (Forall_forall _ _) Hidx r Hr) as Hr_in.
           apply list_elem_of_fmap in Hr_in as ([j d] & -> & Hjd).
           exact (proj1 (Forall_forall _ _) Hhead (j, d) Hjd).
        -- cbn. lia.
      * cbn [rerank_each] in Hrun. unfold predict_row, lift in Hrun. unfold_M.
        rewrite Hp, Hfloat in Hrun. discriminate Hrun.
    + rewrite (rerank_each_skip _ _ _ _ _ _ _ _ Hp) in Hrun by (by left).
      destruct (IH _ _ _ _ Hsorted Hin Hrun) as (new & -> & Hnew & Hidx & Hord & Hlen).
      exists new. split_and!; [done | done | | done | cbn; lia].
      eapply Forall_impl; [exact Hidx|]. intros r Hr. cbn. by right.
  - cbn [rerank_each] in Hrun. unfold predict_row in Hrun. unfold_M.
    rewrite Hp in Hrun. discriminate Hrun.
Qed.






End rerank.




Example rerank_stable_ties :
  (rerank (provider := provider_by_length) (builtins := strict_builtins)
     (sorter := insertion_sort)
     "q" ["aa"; ""; "bbbb"; "cc"] None (World () [])).1
  = Ret [Scored "bbbb" (FNum 4) 2; Scored "aa" (FNum 2) 0; Scored "cc" (FNum 2) 3].
Proof. reflexivity. Qed.

End DataRobotClientFacts.

(** ** The LangChain adapters *)

Module DataRobotLangchainFacts.
Import DataRobotClient DataRobotLangchain Scenario.

(** Every dict [_generate] builds has one of the three roles, and a message
    of another class goes in as a "user" message with [str(content)]. *)
Lemma to_dr_message_recognized (m : BaseMessage) :
  recognized_role (role_of (to_dr_message m)).
Proof.
  unfold recognized_role, role_of.
  destruct m; cbn [to_dr_message];
    rewrite lookup_insert_ne, lookup_singleton_eq by done; cbn; auto.
Qed.

Lemma append_to_dr_message prompt (m : BaseMessage) :
  append_message prompt (to_dr_message m) = prompt +:+ prompt_line m.
Proof.
  unfold append_message.
  destruct m; cbn [to_dr_message prompt_line];
    rewrite lookup_insert_ne, lookup_singleton_eq, lookup_insert_eq by done;
    reflexivity.
Qed.

(** Through [_generate], every message adds its line to the prompt. *)
Lemma format_dr_messages (messages : list BaseMessage) :
  _format_messages_to_prompt (to_dr_message <$> messages)
  = foldl (λ prompt m, prompt +:+ prompt_line m) "" messages +:+ "Assistant:".
Proof.
  unfold _format_messages_to_prompt. f_equal.
  generalize "". induction messages as [|m messages IH]; intros prompt; cbn; [done|].
  by rewrite append_to_dr_message, IH.
Qed.

Section rerank.
Context {provider : Provider} {builtins : Builtins} {sorter : ListSort}.
Implicit Types (documents : list Document) (query : string) (top_n : Z).
Implicit Types (w : world deployment).

(** [compress_documents] returns, whatever the rerank client does. *)
Lemma compress_documents_never_raises top_n documents query w :
  ∃ out w', compress_documents top_n documents query w = (Ret out, w').
Proof.
  unfold compress_documents, try_except.
  match goal with
  | |- context [let (_, _) := ?body in _] => destruct body as [[out|e] w']
  end; [by eexists _, _|].
  unfold_M. by eexists _, _.
Qed.

(** When the rerank call raises, the handler logs the failure and returns
    the slice [documents[:top_n]]. *)
Lemma compress_documents_rerank_raises top_n documents query w e w1 :
  rerank query (page_content <$> documents) (Some top_n) w = (Raise e, w1) →
  compress_documents top_n documents query w
  = (Ret (slice_to documents top_n),
     World (ext w1)
       (trace w1 ++ [EvLog ERROR ("DataRobot reranking failed: " +:+ exn_str e)])).
Proof.
  intros Hrerank.
  unfold compress_documents, try_except. rewrite run_bind, Hrerank. by unfold_M.
Qed.

(** C5.  For a count [top_n >= 0], when the rerank call raises,
    [compress_documents] does not raise: it logs the failure and returns
    the first [top_n] of the original documents in their original order
    (all of them when there are fewer). *)
Theorem compress_documents_fail_open top_n documents query w e w1 :
  (0 ≤ top_n)%Z →
  rerank query (page_content <$> documents) (Some top_n) w = (Raise e, w1) →
  compress_documents top_n documents query w
  = (Ret (take (Z.to_nat top_n) documents),
     World (ext w1)
       (trace w1 ++ [EvLog ERROR ("DataRobot reranking failed: " +:+ exn_str e)])).
Proof.
  intros Htop Hrerank.
  rewrite (compress_documents_rerank_raises _ _ _ _ _ _ Hrerank).
  by rewrite slice_to_nonneg.
Qed.

End rerank.

Lemma compress_documents_fail_open_witness :
  compress_documents (provider := provider_down) (builtins := strict_builtins)
    (sorter := insertion_sort)
    2 [doc "a"; doc "b"; doc "c"] "q" (World () [])
  = (Ret [doc "a"; doc "b"],
     World ()
       [EvPredict (RowRerank "q" "a" 0);
        EvLog ERROR "DataRobot reranking failed: connection refused";
        EvLog ERROR "DataRobot reranking failed: connection refused"]).
Proof.
  apply (compress_documents_fail_open (provider := provider_down)
           (builtins := strict_builtins) (sorter := insertion_sort)
           2 [doc "a"; doc "b"; doc "c"] "q"
           (World () []) (Exn ConnectionError "connection refused")
           (World ()
              [EvPredict (RowRerank "q" "a" 0);
               EvLog ERROR "DataRobot reranking failed: connection refused"])).
  - lia.
  - reflexivity.
Defined.

(** With the provider up, the documents come back ranked, each with its
    score and its rank from 1. *)
Example compress_documents_ranked :
  (compress_documents (provider := provider_by_length) (builtins := strict_builtins)
     (sorter := insertion_sort) 2 [doc "aa"; doc "bbbb"; doc "c"] "q" (World () [])).1
  = Ret [MkDocument "bbbb" (<["rerank_rank" := MetaInt 1]>
                              (<["rerank_score" := MetaFloat (FNum 4)]> ∅));
         MkDocument "aa" (<["rerank_rank" := MetaInt 2]>
                            (<["rerank_score" := MetaFloat (FNum 2)]> ∅))].
Proof. reflexivity. Qed.

End DataRobotLangchainFacts.

(** * Further properties *)

(** ** The conversation store *)

Module DatastoreExtra.
Import Datastore DatastoreReplay Scenario.

Section facts.
Context {Turn : Type} {pg : Postgres Turn}.
Implicit Types (c : MockDatabaseClient Turn) (tr : list event).
Implicit Types (s : string) (uid : option string) (history : list Turn).
Implicit Types (ops : list (store_op Turn)).

Lemma run_op_store session_id uid history last_time start_time c tr :
  run_op (OpStore session_id uid history last_time start_time) (World c tr)
  = (Ret (),
     World (Mock (<[session_id := Conversation uid history last_time start_time]>
                    (conversations c)))
       (tr ++ [EvPrint ("Mock: Stored conversation for session " +:+ session_id)])).
Proof. reflexivity. Qed.

Lemma run_op_delete session_id c tr :
  ∃ tr', run_op (OpDelete session_id) (World c tr)
         = (Ret (), World (Mock (delete session_id (conversations c))) tr').
Proof.
  cbn [run_op]. unfold mock_delete_conversation. unfold_M.
  case_bool_decide as Hin; cbn.
  - by eexists.
  - exists tr. destruct c as [m]. cbn in *. do 3 f_equal.
    symmetry. apply delete_id. by apply eq_None_not_Some.
Qed.

(** X1. Through the facade, on the in-memory backend, [store_conversation]
    writes the record into the backend and [is_session] then answers
    [True]; after [delete_conversation] it answers [False]. *)
Theorem facade_store_delete_is_session s uid history last_time start_time c tr :
  store_conversation s uid history last_time start_time
    (World (MkDatastore (MockDB c)) tr)
  = (Ret (),
     World (MkDatastore
              (MockDB (Mock (<[s := Conversation uid history last_time start_time]>
                               (conversations c)))))
       (tr ++ [EvPrint ("Mock: Stored conversation for session " +:+ s)]))
  ∧ ((store_conversation s uid history last_time start_time;; is_session s)
       (World (MkDatastore (MockDB c)) tr)).1 = Ret true
  ∧ ((delete_conversation s;; is_session s)
       (World (MkDatastore (MockDB c)) tr)).1 = Ret false.
Proof.
  split_and!.
  - reflexivity.
  - unfold store_conversation, is_session, on_backend, mock_store_conversation,
      mock_is_session.
    unfold_M. cbn. by rewrite lookup_insert_eq, bool_decide_eq_true_2.
  - unfold delete_conversation, is_session, on_backend, mock_delete_conversation,
      mock_is_session.
    unfold_M. cbn. case_bool_decide as Hin; cbn.
    + rewrite lookup_delete_eq. by rewrite bool_decide_eq_false_2 by apply is_Some_None.
    + by rewrite bool_decide_eq_false_2.
Qed.

(** X2. After any sequence of stores and deletes on the in-memory backend,
    no operation has raised, and what [fetch_conversation] and [is_session]
    answer for a session is decided by the last operation on it: the record
    of the last store, absent after a later delete, untouched otherwise. *)
Theorem mock_replay_last_write ops :
  ∀ c tr s, ∃ c' tr',
    run_ops ops (World c tr) = (Ret (), World c' tr')
    ∧ mock_fetch_conversation s (World c' tr')
      = (Ret (last_write s ops (conversations c !! s)), World c' tr')
    ∧ mock_is_session s (World c' tr')
      = (Ret (bool_decide (is_Some (last_write s ops (conversations c !! s)))),
         World c' tr').
Proof.
  induction ops as [|o ops IH]; intros c tr s.
  { exists c, tr. by split_and!. }
  destruct o as [sid uid history last_time start_time | sid].
  - destruct (IH (Mock (<[sid := Conversation uid history last_time start_time]>
                          (conversations c)))
                (tr ++ [EvPrint ("Mock: Stored conversation for session " +:+ sid)]) s)
      as (c' & tr' & Hrun & Hfetch & Hsession).
    exists c', tr'. cbn [run_ops last_write conversations] in *.
    rewrite lookup_insert in Hfetch, Hsession.
    split_and!.
    + by rewrite (run_bind_ret _ _ _ _ _ (run_op_store _ _ _ _ _ _ _)).
    + rewrite Hfetch. by repeat (case_decide || case_bool_decide).
    + rewrite Hsession. by repeat (case_decide || case_bool_decide).
  - destruct (run_op_delete sid c tr) as [tr1 Hdel].
    destruct (IH (Mock (delete sid (conversations c))) tr1 s)
      as (c' & tr' & Hrun & Hfetch & Hsession).
    exists c', tr'. cbn [run_ops last_write conversations] in *.
    rewrite lookup_delete in Hfetch, Hsession.
    split_and!.
    + by rewrite (run_bind_ret _ _ _ _ _ Hdel).
    + rewrite Hfetch. by repeat (case_decide || case_bool_decide).
    + rewrite Hsession. by repeat (case_decide || case_bool_decide).
Qed.

(** X3. On the in-memory backend a store overwrites the whole record of
    the session, start time included, and storing then deleting a session
    that did not exist leaves the conversations exactly as they were. *)
Theorem mock_store_overwrites_and_undoes s uid1 history1 last1 start1
    uid2 history2 last2 start2 c tr :
  ext ((mock_store_conversation s uid1 history1 last1 start1;;
        mock_store_conversation s uid2 history2 last2 start2) (World c tr)).2
  = ext (mock_store_conversation s uid2 history2 last2 start2 (World c tr)).2
  ∧ (conversations c !! s = None →
     ext ((mock_store_conversation s uid1 history1 last1 start1;;
           mock_delete_conversation s) (World c tr)).2 = c).
Proof.
  split.
  - unfold mock_store_conversation. unfold_M. cbn. by rewrite insert_insert_eq.
  - intros Hfresh. unfold mock_store_conversation, mock_delete_conversation.
    unfold_M. cbn. rewrite lookup_insert_eq.
    rewrite bool_decide_eq_true_2 by done. cbn.
    rewrite delete_insert_eq. destruct c as [m]. cbn in *. f_equal.
    by apply delete_id.
Qed.

End facts.

Lemma mock_store_overwrites_and_undoes_witness :
  ext ((mock_store_conversation "s1" None ["hi"] "t1" "t0";;
        mock_delete_conversation "s1") (World (Mock (Turn := string) ∅) [])).2
  = Mock ∅.
Proof.
  apply (mock_store_overwrites_and_undoes "s1" None ["hi"] "t1" "t0"
           None ["hi"] "t1" "t0" (Mock ∅) []).
  reflexivity.
Defined.

End DatastoreExtra.

(** ** The retrying transport *)

Module AssistantClientExtra.
Import AssistantClient AssistantApi AssistantClientFacts Scenario MoreScenario.

Section facts.
Context {session : Session} {clock : Clock} (config : AssistantConfig).
Implicit Types (method url endpoint : string) (data : option json).
Implicit Types (w : world session_state) (attempt : Z) (todo : list Z).

(** A failed attempt followed by a delay that [time.sleep] rejects. *)
Lemma for_attempt_bad_delay method url data attempt todo w e s' e' :
  session_request method url data (timeout config) (ext w) = (Raise e, s') →
  is_RequestException e = true →
  (attempt < retry_attempts config - 1)%Z →
  sleep_error (retry_delay config) = Some e' →
  for_attempt config method url data (attempt :: todo) w
  = (Raise e',
     World s' (trace w ++
       [EvRequest method url data (timeout config);
        EvLog WARNING ("Request attempt " +:+ pretty (attempt + 1)%Z
                       +:+ " failed: " +:+ exn_str e)])).
Proof.
  intros Hreq Hcls Hlt Hdelay.
  cbn [for_attempt]. unfold attempt_once. unfold_M. rewrite Hreq.
  unfold on_request_failure, time_sleep.
  rewrite Hcls, Hdelay, bool_decide_eq_true_2 by done.
  unfold_M. by rewrite <- !app_assoc.
Qed.

(** What one iteration does: it ends the call with a body or an exception
    after one request, or it goes on after a request, a warning and a sleep,
    and then it was not the last attempt. *)
Lemma for_attempt_step method url data attempt todo w :
  let request := EvRequest method url data (timeout config) in
  (∃ j w', for_attempt config method url data (attempt :: todo) w = (Ret (Some j), w')
           ∧ trace w' = trace w ++ [request]
           ∧ session_request method url data (timeout config) (ext w)
             = (Ret j, ext w'))
  ∨ (∃ e w' lg, for_attempt config method url data (attempt :: todo) w = (Raise e, w')
                ∧ trace w' = trace w ++ request :: lg
                ∧ List.filter is_attempt_or_sleep lg = [])
  ∨ ((attempt < retry_attempts config - 1)%Z
     ∧ ∃ w1 lg, for_attempt config method url data (attempt :: todo) w
                = for_attempt config method url data todo w1
                ∧ trace w1 = trace w ++ [request; lg; EvSleep (retry_delay config)]
                ∧ is_attempt_or_sleep lg = false).
Proof.
  intros request.
  destruct (session_request method url data (timeout config) (ext w))
    as [[j|e] s'] eqn:Hreq.
  { left. eexists _, _. split; [by eapply for_attempt_success | done]. }
  destruct (is_RequestException e) eqn:Hcls.
  2:{ right. left. eexists _, _, []. split; [by eapply for_attempt_other_exception|].
      by split. }
  destruct (decide (attempt < retry_attempts config - 1)%Z) as [Hlt|Hlast].
  2:{ right. left. eexists _, _, [_].
      split; [by eapply for_attempt_last | by split]. }
  destruct (sleep_error (retry_delay config)) as [e'|] eqn:Hdelay.
  - right. left. eexists _, _, [_].
    split; [by eapply for_attempt_bad_delay | by split].
  - right. right. split; [done|]. eexists _, _.
    split; [by eapply for_attempt_retry | by split].
Qed.

Lemma retry_pattern_succ request secs n :
  retry_pattern request secs (S (S n))
  = request :: EvSleep secs :: retry_pattern request secs (S n).
Proof. reflexivity. Qed.




Lemma for_attempt_returns_body method url data :
  ∀ (n i : nat) w r w',
    (Z.of_nat i + Z.of_nat (S n) = retry_attempts config)%Z →
    for_attempt config method url data (Z.of_nat <$> seq i (S n)) w = (Ret r, w') →
    ∃ j s, r = Some j
           ∧ session_request method url data (timeout config) s = (Ret j, ext w').
Proof.
  induction n as [|n IH]; intros i w r w' Hk.
  - change (seq i 1) with [i]. cbn [fmap list_fmap].
    destruct (for_attempt_step method url data (Z.of_nat i) [] w)
      as [(j & w1 & -> & _ & Hreq) | [(e & w1 & lg & -> & _) | (Hlt & _)]];
      [|done|lia].
    intros [= <- <-]. by eexists _, _.
  - change (seq i (S (S n))) with (i :: seq (S i) (S n)). rewrite fmap_cons.
    destruct (for_attempt_step method url data (Z.of_nat i)
                (Z.of_nat <$> seq (S i) (S n)) w)
      as [(j & w1 & -> & _ & Hreq) | [(e & w1 & lg & -> & _) | (Hlt & w1 & lg & -> & _)]];
      [|done|].
    + intros [= <- <-]. by eexists _, _.
    + apply IH. lia.
Qed.

(** X5. With at least one attempt configured, a call never runs off the
    end of its loop: whenever it returns, what it returns is the body that
    [response.json()] parsed on an attempt that succeeded, the last attempt
    of the call.  The value is Python's [None] only when that body is the
    JSON [null]. *)
Theorem make_request_returns_body method endpoint data w r w' :
  (1 ≤ retry_attempts config)%Z →
  _make_request config method endpoint data w = (Ret r, w') →
  ∃ j s, r = Some j
         ∧ session_request method (base_url config +:+ endpoint) data
             (timeout config) s = (Ret j, ext w').
Proof.
  intros Hk. unfold _make_request, range.
  destruct (Z.to_nat (retry_attempts config)) as [|n] eqn:Hn; [lia|].
  apply for_attempt_returns_body. lia.
Qed.

(** After [m] failures that are not the last attempts, the loop is at its
    attempt [i + m], in the state the failures left. *)
Lemma for_attempt_after_failures method url data m s s1 :
  fails_for config method url data m s s1 →
  ((0 < m)%nat → sleep_error (retry_delay config) = None) →
  ∀ (i n : nat) tr,
    (m < n)%nat →
    (Z.of_nat i + Z.of_nat n = retry_attempts config)%Z →
    ∃ evs,
      for_attempt config method url data (Z.of_nat <$> seq i n) (World s tr)
      = for_attempt config method url data (Z.of_nat <$> seq (i + m) (n - m))
          (World s1 (tr ++ evs))
      ∧ ∀ k, retry_pattern (EvRequest method url data (timeout config))
               (retry_delay config) (m + S k)
             = List.filter is_attempt_or_sleep evs
               ++ retry_pattern (EvRequest method url data (timeout config))
                    (retry_delay config) (S k).
Proof.
  intros Hfails.
  induction Hfails as [s | m s e s1 s' Hreq Hcls Hfails IH];
    intros Hdelay i n tr Hmn Hk.
  { exists []. by rewrite app_nil_r, Nat.add_0_r, Nat.sub_0_r. }
  assert (Hsleep : sleep_error (retry_delay config) = None) by (apply Hdelay; lia).
  destruct n as [|n]; [lia|].
  change (seq i (S n)) with (i :: seq (S i) n). rewrite fmap_cons.
  rewrite (for_attempt_retry config method url data _ _ (World s tr) e s1)
    by (done || lia).
  cbn [trace].
  match goal with
  | |- context [World s1 (tr ++ ?new)] =>
      destruct (IH (λ _, Hsleep) (S i) n (tr ++ new)) as (evs & Hrun & Hpat);
        [lia | lia |];
      exists (new ++ evs)
  end.
  split.
  - rewrite Hrun, app_assoc. by replace (S i + m)%nat with (i + S m)%nat by lia.
  - intros k. rewrite List.filter_app. cbn [List.filter is_attempt_or_sleep app].
    rewrite <- Hpat. replace (S m + S k)%nat with (S (S (m + k))) by lia.
    rewrite retry_pattern_succ. by replace (S (m + k)) with (m + S k)%nat by lia.
Qed.

(** X6. When the first [m] attempts fail with a [RequestException] and the
    next one succeeds, with [m] below [retry_attempts] and, when [m > 0], a
    delay that [time.sleep] accepts, the call returns the body of that
    attempt after exactly [m + 1] attempts and [m] sleeps, and raises
    nothing. *)
Theorem make_request_recovers method endpoint data m s s1 j s2 tr :
  let url := base_url config +:+ endpoint in
  fails_for config method url data m s s1 →
  session_request method url data (timeout config) s1 = (Ret j, s2) →
  (Z.of_nat m < retry_attempts config)%Z →
  ((0 < m)%nat → sleep_error (retry_delay config) = None) →
  ∃ evs,
    _make_request config method endpoint data (World s tr)
    = (Ret (Some j), World s2 (tr ++ evs))
    ∧ List.filter is_attempt_or_sleep evs
      = retry_pattern (EvRequest method url data (timeout config))
          (retry_delay config) (S m).
Proof.
  intros url Hfails Hok Hm Hdelay. unfold _make_request, range. fold url.
  destruct (for_attempt_after_failures method url data m s s1 Hfails Hdelay
              0%nat (Z.to_nat (retry_attempts config)) tr)
    as (evs & -> & Hpat); [lia | lia |].
  destruct (Z.to_nat (retry_attempts config) - m)%nat as [|n] eqn:Hn; [lia|].
  change (seq (0 + m) (S n)) with ((0 + m)%nat :: seq (S (0 + m)) n).
  rewrite fmap_cons.
  rewrite (for_attempt_success config method url data _ _ _ j s2) by done.
  cbn [trace]. rewrite <- app_assoc. eexists. split; [reflexivity|].
  rewrite List.filter_app. specialize (Hpat 0%nat).
  rewrite Nat.add_1_r in Hpat. by rewrite Hpat.
Qed.

(** X7. An exception that is no [RequestException] is not retried: when it
    comes after [m] retried failures (with, when [m > 0], a delay that
    [time.sleep] accepts), the call raises it as it is after [m + 1]
    attempts, with no warning for it and no further attempt. *)
Theorem make_request_other_exception method endpoint data m s s1 e s2 tr :
  let url := base_url config +:+ endpoint in
  fails_for config method url data m s s1 →
  session_request method url data (timeout config) s1 = (Raise e, s2) →
  is_RequestException e = false →
  (Z.of_nat m < retry_attempts config)%Z →
  ((0 < m)%nat → sleep_error (retry_delay config) = None) →
  ∃ evs,
    _make_request config method endpoint data (World s tr)
    = (Raise e, World s2 (tr ++ evs))
    ∧ List.filter is_attempt_or_sleep evs
      = retry_pattern (EvRequest method url data (timeout config))
          (retry_delay config) (S m)
    ∧ last evs = Some (EvRequest method url data (timeout config)).
Proof.
  intros url Hfails Hraise Hcls Hm Hdelay. unfold _make_request, range. fold url.
  destruct (for_attempt_after_failures method url data m s s1 Hfails Hdelay
              0%nat (Z.to_nat (retry_attempts config)) tr)
    as (evs & -> & Hpat); [lia | lia |].
  destruct (Z.to_nat (retry_attempts config) - m)%nat as [|n] eqn:Hn; [lia|].
  change (seq (0 + m) (S n)) with ((0 + m)%nat :: seq (S (0 + m)) n).
  rewrite fmap_cons.
  rewrite (for_attempt_other_exception config method url data _ _ _ e s2) by done.
  cbn [trace]. rewrite <- app_assoc. eexists. split_and!; [reflexivity | |].
  - rewrite List.filter_app. specialize (Hpat 0%nat).
    rewrite Nat.add_1_r in Hpat. by rewrite Hpat.
  - by rewrite last_snoc.
Qed.


End facts.

(** A service that refuses the first two attempts and answers the third. *)
Lemma make_request_recovers_witness :
  ∃ evs,
    _make_request (session := service_flaky) (clock := clock_int64)
      (default_config 3 1)
      "GET" "/health" None (World 0%nat [])
    = (Ret (Some (JObj [("status", JStr "ok")])), World 3%nat ([] ++ evs))
    ∧ List.filter is_attempt_or_sleep evs
      = retry_pattern (EvRequest "GET" "http://localhost:8000/health" None 30)
          (FNum 1) 3.
Proof.
  apply (make_request_recovers (session := service_flaky) (clock := clock_int64)
           (default_config 3 1)
           "GET" "/health" None 2 0%nat 2%nat).
  - repeat (eapply fails_for_S; [reflexivity | reflexivity |]). apply fails_for_O.
  - reflexivity.
  - cbn. lia.
  - by vm_compute.
Defined.

(** A service whose second answer cannot be handled by the retry clause. *)
Lemma make_request_other_exception_witness :
  ∃ evs,
    _make_request (session := service_broken) (clock := clock_int64)
      (default_config 3 1)
      "GET" "/health" None (World 0%nat [])
    = (Raise (Exn TypeError "Object of type set is not JSON serializable"),
       World 2%nat ([] ++ evs))
    ∧ List.filter is_attempt_or_sleep evs
      = retry_pattern (EvRequest "GET" "http://localhost:8000/health" None 30)
          (FNum 1) 2
    ∧ last evs = Some (EvRequest "GET" "http://localhost:8000/health" None 30).
Proof.
  apply (make_request_other_exception (session := service_broken)
           (clock := clock_int64) (default_config 3 1) "GET" "/health" None 1 0%nat 1%nat).
  - eapply fails_for_S; [reflexivity | reflexivity |]. apply fails_for_O.
  - reflexivity.
  - reflexivity.
  - cbn. lia.
  - by vm_compute.
Defined.

Lemma make_request_returns_body_witness :
  ∃ j s, Some (JObj [("status", JStr "ok")]) = Some j
         ∧ session_request (Session := service_flaky) "GET"
             "http://localhost:8000/health" None 30 s = (Ret j, 3%nat).
Proof.
  apply (make_request_returns_body (session := service_flaky)
           (clock := clock_int64) (default_config 3 1) "GET" "/health" None
           (World 0%nat []) (Some (JObj [("status", JStr "ok")]))
           (World 3%nat
              [EvRequest "GET" "http://localhost:8000/health" None 30;
               EvLog WARNING "Request attempt 1 failed: connection refused";
               EvSleep (FNum 1);
               EvRequest "GET" "http://localhost:8000/health" None 30;
               EvLog WARNING "Request attempt 2 failed: connection refused";
               EvSleep (FNum 1);
               EvRequest "GET" "http://localhost:8000/health" None 30])).
  - cbn. lia.
  - reflexivity.
Defined.


End AssistantClientExtra.

(** ** The inference clients *)

Module DataRobotClientExtra.
Import DataRobotClient DataRobotVocabulary DataRobotClientFacts Scenario MoreScenario.

(** *** Strings *)

Lemma string_app_nil_r (a : string) : a +:+ "" = a.
Proof.
  induction a as [|ch a IH]; [done|].
  change (String ch (a +:+ "") = String ch a). by f_equal.
Qed.

Lemma string_app_assoc (a b c : string) : (a +:+ b) +:+ c = a +:+ (b +:+ c).
Proof.
  induction a as [|ch a IH]; [done|].
  change (String ch ((a +:+ b) +:+ c) = String ch (a +:+ (b +:+ c))). by f_equal.
Qed.

(** *** Flattening *)

Lemma append_message_prefix prompt (message : gmap string pyval) :
  append_message prompt message = prompt +:+ append_message "" message.
Proof.
  unfold append_message. repeat case_bool_decide; cbn; by rewrite ?string_app_nil_r.
Qed.

Lemma foldl_append_message prompt tail (messages : list (gmap string pyval)) :
  foldl append_message prompt messages +:+ tail
  = prompt +:+ foldr (λ m rest, append_message "" m +:+ rest) tail messages.
Proof.
  revert prompt. induction messages as [|m messages IH]; intros prompt; cbn; [done|].
  by rewrite IH, (append_message_prefix prompt), string_app_assoc.
Qed.

(** X9. The prompt is the concatenation, in the order of the messages, of
    what each message adds to an empty prompt, followed by "Assistant:": a
    message adds the same line wherever it stands.  A message without a
    "role" key is read as a user message, and one without "content" adds a
    line with empty content. *)
Theorem format_messages_concat (messages : list (gmap string pyval)) :
  _format_messages_to_prompt messages
  = foldr (λ m rest, append_message "" m +:+ rest) "Assistant:" messages
  ∧ ∀ message : gmap string pyval,
      message !! "role" = None →
      append_message "" message
      = "User: " +:+ py_str (default (VStr "") (message !! "content")) +:+ nl.
Proof.
  split.
  - unfold _format_messages_to_prompt. by rewrite foldl_append_message.
  - intros message Hrole. unfold append_message. by rewrite Hrole.
Qed.

Lemma format_messages_concat_witness :
  append_message "" (∅ : gmap string pyval)
  = "User: " +:+ py_str (default (VStr "") ((∅ : gmap string pyval) !! "content"))
    +:+ nl.
Proof.
  destruct (format_messages_concat []) as [_ Hdefault].
  apply (Hdefault ∅). reflexivity.
Defined.

Section facts.
Context {provider : Provider} {builtins : Builtins} {sorter : ListSort}.
Implicit Types (texts : list string) (w : world deployment).
Implicit Types (query : string) (documents : list string).
Implicit Types (docs : list (nat * string)) (results out : list scored).

(** *** Chat *)

(** The runs of [predict]. *)
Lemma predict_run prompt w :
  match predict prompt w with
  | (Ret text, w') =>
      ∃ p rest,
        deployment_predict (RowPrompt prompt) (ext w) = (Ret (Some (p :: rest)), ext w')
        ∧ text = str_of_pvalue p
        ∧ trace w' = trace w ++ [EvPredict (RowPrompt prompt)]
  | (Raise e, w') =>
      trace w' = trace w ++
        [EvPredict (RowPrompt prompt);
         EvLog ERROR ("DataRobot prediction failed: " +:+ exn_str e)]
      ∧ ((∃ s', deployment_predict (RowPrompt prompt) (ext w) = (Raise e, s'))
         ∨ (∃ p s', deployment_predict (RowPrompt prompt) (ext w) = (Ret p, s')
                    ∧ no_result p
                    ∧ e = Exn ValueError "No prediction returned from DataRobot"))
  end.
Proof.
  unfold predict, predict_row. unfold_M.
  destruct (deployment_predict (RowPrompt prompt) (ext w)) as [[[[|p rest]|]|e] s'] eqn:Hp;
    cbn.
  - split; [by rewrite <- app_assoc|]. right. exists (Some []), s'.
    split_and!; [done | by right | done].
  - by exists p, rest.
  - split; [by rewrite <- app_assoc|]. right. exists None, s'.
    split_and!; [done | by left | done].
  - split; [by rewrite <- app_assoc|]. left. by exists s'.
Qed.

(** X10. [chat] makes exactly one call to the provider, with the flattened
    prompt.  It returns [str()] of the first element of a non-empty
    prediction; on a prediction without result it raises [ValueError]
    "No prediction returned from DataRobot", and an exception of the provider
    comes out as it is; in both cases after one ERROR log entry. *)
Theorem chat_one_call (messages : list (gmap string pyval)) w :
  let prompt := _format_messages_to_prompt messages in
  match chat messages w with
  | (Ret text, w') =>
      ∃ p rest,
        deployment_predict (RowPrompt prompt) (ext w) = (Ret (Some (p :: rest)), ext w')
        ∧ text = str_of_pvalue p
        ∧ trace w' = trace w ++ [EvPredict (RowPrompt prompt)]
  | (Raise e, w') =>
      trace w' = trace w ++
        [EvPredict (RowPrompt prompt);
         EvLog ERROR ("DataRobot prediction failed: " +:+ exn_str e)]
      ∧ ((∃ s', deployment_predict (RowPrompt prompt) (ext w) = (Raise e, s'))
         ∨ (∃ p s', deployment_predict (RowPrompt prompt) (ext w) = (Ret p, s')
                    ∧ no_result p
                    ∧ e = Exn ValueError "No prediction returned from DataRobot"))
  end.
Proof. intros prompt. unfold chat. apply predict_run. Qed.

(** *** Embeddings *)



(** *** Reranking *)

Lemma rerank_ret_inv query documents top_k w out w' :
  rerank query documents top_k w = (Ret out, w') →
  ∃ results,
    rerank_each query (enumerate documents) [] w = (Ret results, w')
    ∧ out = match top_k with
            | Some k => slice_to (list_sort_desc results) k
            | None => list_sort_desc results
            end.
Proof.
  unfold rerank, try_except. rewrite run_bind.
  destruct (rerank_each query (enumerate documents) [] w) as [[results|e] w1];
    unfold_M; [|discriminate].
  intros [= <- <-]. by exists results.
Qed.

(** X12. [top_k] only truncates: a call with [top_k] makes the same calls
    to the provider and leaves the same trace as the call without it, raises
    when and what that call raises, and returns the [top_k] slice of its
    ranking. *)
Theorem rerank_top_k_truncates query documents (k : Z) w :
  rerank query documents (Some k) w
  = match rerank query documents None w with
    | (Ret out, w') => (Ret (slice_to out k), w')
    | (Raise e, w') => (Raise e, w')
    end.
Proof.
  unfold rerank, try_except. rewrite !run_bind.
  by destruct (rerank_each query (enumerate documents) [] w) as [[results|e] w1].
Qed.

Lemma rerank_each_trace query docs :
  ∀ results w out w',
    rerank_each query docs results w = (Ret out, w') →
    ∃ evs,
      trace w' = trace w ++ evs
      ∧ List.filter is_predict evs
        = (λ jd : nat * string, EvPredict (RowRerank query jd.2 jd.1)) <$> docs
      ∧ (length out + length (List.filter is_warning evs)
         = length results + length docs)%nat.
Proof.
  induction docs as [|[i doc] docs IH]; intros results w out w' Hrun.
  { cbn in Hrun. unfold_M. injection Hrun as <- <-. exists [].
    rewrite app_nil_r. cbn. split_and!; [done | done | lia]. }
  destruct (deployment_predict (RowRerank query doc i) (ext w)) as [[p|e] s'] eqn:Hp.
  - assert (Hskip : no_result p →
              ∃ evs, trace w' = trace w ++ evs
                     ∧ List.filter is_predict evs
                       = (λ jd : nat * string, EvPredict (RowRerank query jd.2 jd.1))
                           <$> (i, doc) :: docs
                     ∧ (length out + length (List.filter is_warning evs)
                        = length results + length ((i, doc) :: docs))%nat).
    { intros Hnone. rewrite (rerank_each_skip _ _ _ _ _ _ _ _ Hp Hnone) in Hrun.
      apply IH in Hrun as (evs & Htrace & Hcalls & Hcount). cbn [trace] in Htrace.
      eexists. split; [by rewrite Htrace, <- app_assoc|].
      cbn [app List.filter is_predict is_warning length fmap list_fmap].
      rewrite Hcalls. split; [done | lia]. }
    destruct p as [[|x xs]|]; [apply Hskip; by right | | apply Hskip; by left].
    destruct (py_float x) as [q|e] eqn:Hfloat.
    + rewrite (rerank_each_scored _ _ _ _ _ _ _ _ _ _ Hp Hfloat) in Hrun.
      apply IH in Hrun as (evs & Htrace & Hcalls & Hcount). cbn [trace] in Htrace.
      eexists. split; [by rewrite Htrace, <- app_assoc|].
      cbn [app List.filter is_predict is_warning length fmap list_fmap].
      rewrite Hcalls. split; [done|]. rewrite length_app in Hcount. cbn in Hcount. lia.
    + cbn [rerank_each] in Hrun. unfold predict_row, lift in Hrun. unfold_M.
      rewrite Hp, Hfloat in Hrun. discriminate Hrun.
  - cbn [rerank_each] in Hrun. unfold predict_row in Hrun. unfold_M.
    rewrite Hp in Hrun. discriminate Hrun.
Qed.

Lemma index_sorted_NoDup results :
  StronglySorted (λ a b, (index a < index b)%nat) results →
  NoDup (index <$> results).
Proof.
  induction 1 as [|r results Hsorted IH Hall]; cbn; constructor; [|done].
  intros Hin. apply list_elem_of_fmap in Hin as (r' & Heq & Hr').
  rewrite Forall_forall in Hall. specialize (Hall r' Hr'). lia.
Qed.

(** X13. A call without [top_k] that returns has made one scoring call per
    document, in the order of the documents; every document is in the
    ranking or was skipped with one warning, so the records and the warnings
    add up to the number of documents; and no document is ranked twice. *)
Theorem rerank_accounts_for_every_document query documents w out w' :
  rerank query documents None w = (Ret out, w') →
  ∃ evs,
    trace w' = trace w ++ evs
    ∧ List.filter is_predict evs = scoring_calls query documents
    ∧ (length out + length (List.filter is_warning evs) = length documents)%nat
    ∧ NoDup (index <$> out).
Proof.
  intros Hrun. apply rerank_ret_inv in Hrun as (results & Hloop & ->).
  destruct (rerank_each_trace _ _ _ _ _ _ Hloop) as (evs & Htrace & Hcalls & Hcount).
  destruct (enumerate_spec documents) as [Henum_sorted Henum_in].
  destruct (rerank_each_spec _ _ _ _ _ _ _ Henum_sorted Henum_in Hloop)
    as (new & Hnew & _ & _ & Hord & _).
  cbn [app] in Hnew. subst new.
  exists evs. split_and!; [done | done | |].
  - rewrite list_sort_desc_length. rewrite enumerate_length in Hcount.
    cbn in Hcount. lia.
  - rewrite list_sort_Permutation. by apply index_sorted_NoDup.
Qed.

Lemma rerank_each_unconvertible query i d docs :
  (i, d) ∈ docs →
  (∀ s, ∃ x xs s' e,
     deployment_predict (RowRerank query d i) s = (Ret (Some (x :: xs)), s')
     ∧ py_float x = Raise e) →
  ∀ results w, ∃ e w', rerank_each query docs results w = (Raise e, w').
Proof.
  intros Hin Hbad. induction docs as [|[j doc] docs IH]; intros results w.
  { by apply elem_of_nil in Hin. }
  apply elem_of_cons in Hin as [[= <- <-] | Hin].
  - destruct (Hbad (ext w)) as (x & xs & s' & e & Hp & Hfloat).
    cbn [rerank_each]. unfold predict_row, lift. unfold_M.
    rewrite Hp, Hfloat. by eexists _, _.
  - destruct (deployment_predict (RowRerank query doc j) (ext w)) as [[p|e] s'] eqn:Hp.
    + destruct p as [[|x xs]|].
      * rewrite (rerank_each_skip _ _ _ _ _ _ _ _ Hp) by (by right). by apply IH.
      * destruct (py_float x) as [q|e] eqn:Hfloat.
        -- rewrite (rerank_each_scored _ _ _ _ _ _ _ _ _ _ Hp Hfloat). by apply IH.
        -- cbn [rerank_each]. unfold predict_row, lift. unfold_M.
           rewrite Hp, Hfloat. by eexists _, _.
      * rewrite (rerank_each_skip _ _ _ _ _ _ _ _ Hp) by (by left). by apply IH.
    + cbn [rerank_each]. unfold predict_row. unfold_M. rewrite Hp. by eexists _, _.
Qed.

Lemma enumerate_lookup {A} (l : list A) (i : nat) (x : A) :
  l !! i = Some x → (i, x) ∈ enumerate l.
Proof.
  intros Hx. apply list_elem_of_lookup. exists i. unfold enumerate.
  rewrite lookup_zip_with, lookup_seq_lt by (by eapply lookup_lt_Some).
  cbn. by rewrite Hx.
Qed.

(** X14. A first element that [float()] rejects is not skipped like an
    empty prediction: when the provider answers the scoring call of one of
    the documents with such an element, [rerank] raises, whatever the other
    documents are and whatever [top_k] is. *)
Theorem rerank_unconvertible_score_aborts query documents top_k w i d :
  documents !! i = Some d →
  (∀ s, ∃ x xs s' e,
     deployment_predict (RowRerank query d i) s = (Ret (Some (x :: xs)), s')
     ∧ py_float x = Raise e) →
  ∃ e w', rerank query documents top_k w = (Raise e, w').
Proof.
  intros Hd Hbad.
  destruct (rerank_each_unconvertible query i d (enumerate documents)
              (enumerate_lookup _ _ _ Hd) Hbad [] w) as (e & w1 & Hloop).
  unfold rerank, try_except. rewrite run_bind, Hloop. unfold_M. by eexists _, _.
Qed.

End facts.


Lemma rerank_accounts_for_every_document_witness :
  ∃ evs,
    [EvPredict (RowRerank "q" "aa" 0); EvPredict (RowRerank "q" "" 1);
     EvLog WARNING "No rerank score returned for document 1";
     EvPredict (RowRerank "q" "bbbb" 2)] = [] ++ evs
    ∧ List.filter is_predict evs = scoring_calls "q" ["aa"; ""; "bbbb"]
    ∧ (length [Scored "bbbb" (FNum 4) 2; Scored "aa" (FNum 2) 0]
       + length (List.filter is_warning evs) = 3)%nat
    ∧ NoDup (index <$> [Scored "bbbb" (FNum 4) 2; Scored "aa" (FNum 2) 0]).
Proof.
  apply (rerank_accounts_for_every_document (provider := provider_by_length)
           (builtins := strict_builtins) (sorter := insertion_sort) "q" ["aa"; ""; "bbbb"] (World () [])
           [Scored "bbbb" (FNum 4) 2; Scored "aa" (FNum 2) 0]
           (World ()
              [EvPredict (RowRerank "q" "aa" 0); EvPredict (RowRerank "q" "" 1);
               EvLog WARNING "No rerank score returned for document 1";
               EvPredict (RowRerank "q" "bbbb" 2)])).
  vm_compute. reflexivity.
Defined.

Lemma rerank_unconvertible_score_aborts_witness :
  ∃ e w',
    rerank (provider := provider_text_scores) (builtins := strict_builtins)
      (sorter := insertion_sort) "q" ["aa"; "b"] (Some 1%Z) (World () []) = (Raise e, w').
Proof.
  apply (rerank_unconvertible_score_aborts (provider := provider_text_scores)
           (builtins := strict_builtins) (sorter := insertion_sort) "q" ["aa"; "b"] (Some 1%Z) (World () [])
           1%nat "b").
  - reflexivity.
  - intros s. by eexists (PStr "high"), [], s, _.
Defined.

End DataRobotClientExtra.

(** ** The LangChain adapters *)

Module DataRobotLangchainExtra.
Import DataRobotClient DataRobotVocabulary DataRobotLangchain.
Import DataRobotClientFacts DataRobotClientExtra DataRobotLangchainFacts Scenario.

Section facts.
Context {provider : Provider} {builtins : Builtins} {sorter : ListSort}.
Implicit Types (messages : list BaseMessage) (w : world deployment).
Implicit Types (documents : list Document) (query : string) (top_n : Z).
Implicit Types (ranking : list scored).

(** The prompt [_generate] sends for [messages]. *)
Lemma generate_prompt messages :
  _format_messages_to_prompt (to_dr_message <$> messages)
  = foldl (λ prompt m, prompt +:+ prompt_line m) "" messages +:+ "Assistant:".
Proof. apply format_dr_messages. Qed.

(** X15. When [_generate] returns, the provider was called once, with the
    prompt that holds one line for every message, in order, none left out
    (a message of another class as a "User:" line), and the result is one
    generation, an [AIMessage] whose content is the text of the first
    prediction; [_stream] then yields this one result and nothing else. *)
Theorem generate_wraps_one_answer messages w result w' :
  _generate messages w = (Ret result, w') →
  let prompt := foldl (λ prompt m, prompt +:+ prompt_line m) "" messages
                +:+ "Assistant:" in
  (∃ p rest,
     deployment_predict (RowPrompt prompt) (ext w) = (Ret (Some (p :: rest)), ext w')
     ∧ result = MkChatResult [MkChatGeneration (AIMessage (VStr (str_of_pvalue p)))])
  ∧ trace w' = trace w ++ [EvPredict (RowPrompt prompt)]
  ∧ _stream messages w = (Ret [result], w').
Proof.
  intros Hrun prompt.
  assert (Hstream : _stream messages w = (Ret [result], w')).
  { unfold _stream. by rewrite run_bind, Hrun. }
  unfold _generate, try_except in Hrun. rewrite run_bind in Hrun.
  unfold chat in Hrun. rewrite generate_prompt in Hrun. fold prompt in Hrun.
  pose proof (predict_run prompt w) as Hpredict.
  destruct (predict prompt w) as [[text|e] w1]; unfold_M; [|discriminate Hrun].
  injection Hrun as <- <-. destruct Hpredict as (p & rest & Hp & -> & Htrace).
  split_and!; [by exists p, rest | done | done].
Qed.


(** What [rerank] returns is made of input documents, whatever [top_k]. *)
Lemma rerank_ret_drawn query (texts : list string) top_k w ranking w' :
  rerank query texts top_k w = (Ret ranking, w') →
  Forall (drawn_from query texts) ranking
  ∧ (∀ k, top_k = Some k → (0 ≤ k)%Z →
          (Z.of_nat (length ranking) ≤ Z.of_nat (length texts) `min` k)%Z).
Proof.
  intros Hrun. apply rerank_ret_inv in Hrun as (results & Hloop & ->).
  destruct (enumerate_spec texts) as [Henum_sorted Henum_in].
  destruct (rerank_each_spec _ _ _ _ _ _ _ Henum_sorted Henum_in Hloop)
    as (new & Hnew & Hdrawn & _ & _ & Hlen).
  cbn [app] in Hnew. subst new. rewrite enumerate_length in Hlen.
  assert (Hsorted : Forall (drawn_from query texts) (list_sort_desc results))
    by (by rewrite list_sort_Permutation).
  split.
  - destruct top_k as [k|]; [|done].
    eapply Forall_prefix; [apply slice_to_prefix | done].
  - intros k -> Hk.
    pose proof (slice_to_length_nonneg (list_sort_desc results) k Hk) as Hmin.
    rewrite list_sort_desc_length in Hmin. lia.
Qed.

Lemma rebuild_run documents :
  ∀ ranking (reranked_docs : list Document) w,
    Forall (λ r, is_Some (documents !! index r)) ranking →
    ∃ new,
      rebuild documents ranking reranked_docs w = (Ret (reranked_docs ++ new), w)
      ∧ length new = length ranking
      ∧ ∀ i r, ranking !! i = Some r →
          ∃ orig,
            documents !! index r = Some orig
            ∧ new !! i
              = Some (MkDocument (page_content orig)
                        (<["rerank_rank" :=
                             MetaInt (Z.of_nat (length reranked_docs + i) + 1)]>
                           (<["rerank_score" := MetaFloat (score r)]>
                              (metadata orig)))).
Proof.
  induction ranking as [|r ranking IH]; intros reranked_docs w Hall.
  { exists []. rewrite app_nil_r. split_and!; [done | done |].
    intros i r Hr. by rewrite lookup_nil in Hr. }
  apply Forall_cons in Hall as [[orig Horig] Hall].
  cbn [rebuild]. rewrite Horig.
  match goal with
  | |- context [rebuild documents ranking (reranked_docs ++ [?d]) w] =>
      destruct (IH (reranked_docs ++ [d]) w Hall) as (new & Hrun & Hlen & Hnew);
      exists (d :: new)
  end.
  split_and!.
  - rewrite Hrun. by rewrite <- app_assoc.
  - cbn. by rewrite Hlen.
  - intros [|i] r' Hr'; cbn in Hr'.
    + injection Hr' as <-. exists orig. split; [done|]. cbn.
      by rewrite Nat.add_0_r.
    + destruct (Hnew i r' Hr') as (orig' & Horig' & Hlook).
      exists orig'. split; [done|].
      match goal with |- (?d :: new) !! S i = _ => change ((d :: new) !! S i) with (new !! i) end.
      rewrite Hlook, length_app. cbn [length].
      by replace (length reranked_docs + 1 + i)%nat
        with (length reranked_docs + S i)%nat by lia.
Qed.

(** A ranking that [rerank] returned is rebuilt without [IndexError]. *)
Lemma compress_documents_runs top_n documents query w ranking w1 :
  rerank query (page_content <$> documents) (Some top_n) w = (Ret ranking, w1) →
  ∃ out,
    compress_documents top_n documents query w = (Ret out, w1)
    ∧ rebuild documents ranking [] w1 = (Ret out, w1)
    ∧ length out = length ranking.
Proof.
  intros Hrerank.
  destruct (rerank_ret_drawn _ _ _ _ _ _ Hrerank) as [Hdrawn _].
  assert (Hin : Forall (λ r, is_Some (documents !! index r)) ranking).
  { eapply Forall_impl; [exact Hdrawn|]. intros r [Hr _].
    apply list_lookup_fmap_Some in Hr as (orig & _ & ->). by exists orig. }
  destruct (rebuild_run documents ranking [] w1 Hin) as (out & Hrun & Hlen & _).
  exists out. split_and!; [|done..].
  unfold compress_documents, try_except. rewrite run_bind, Hrerank.
  by rewrite Hrun.
Qed.

(** X17. When the rerank call returns a ranking, [compress_documents]
    returns one document per record, in the order of the ranking: the page
    content of the original document at the record's index, and its
    metadata with "rerank_score" set to the record's score and
    "rerank_rank" to the position counted from 1 (both replace an entry of
    that name; every other entry is kept).  No index is out of range. *)
Theorem compress_documents_reranked top_n documents query w ranking w1 :
  rerank query (page_content <$> documents) (Some top_n) w = (Ret ranking, w1) →
  ∃ out,
    compress_documents top_n documents query w = (Ret out, w1)
    ∧ length out = length ranking
    ∧ ∀ i r, ranking !! i = Some r →
        ∃ orig,
          documents !! index r = Some orig
          ∧ page_content orig = document r
          ∧ out !! i
            = Some (MkDocument (document r)
                      (<["rerank_rank" := MetaInt (Z.of_nat i + 1)]>
                         (<["rerank_score" := MetaFloat (score r)]>
                            (metadata orig)))).
Proof.
  intros Hrerank.
  destruct (rerank_ret_drawn _ _ _ _ _ _ Hrerank) as [Hdrawn _].
  destruct (compress_documents_runs _ _ _ _ _ _ Hrerank) as (out & Hrun & Hbuild & Hlen).
  assert (Hin : Forall (λ r, is_Some (documents !! index r)) ranking).
  { eapply Forall_impl; [exact Hdrawn|]. intros r [Hr _].
    apply list_lookup_fmap_Some in Hr as (orig & _ & ->). by exists orig. }
  destruct (rebuild_run documents ranking [] w1 Hin) as (out' & Hbuild' & _ & Hout).
  rewrite Hbuild in Hbuild'. injection Hbuild' as ->.
  exists out'. split_and!; [done | done |].
  intros i r Hr. destruct (Hout i r Hr) as (orig & Horig & Hlook).
  exists orig. rewrite Forall_forall in Hdrawn.
  destruct (Hdrawn r (list_elem_of_lookup_2 _ _ _ Hr)) as [Hdoc _].
  rewrite list_lookup_fmap, Horig in Hdoc. injection Hdoc as Hdoc.
  split_and!; [done | done |]. by rewrite Hlook, Hdoc.
Qed.

(** X18. With a non-negative [top_n], [compress_documents] returns, on
    every input and whether the rerank call works or fails, at most
    [top_n] documents and at most as many as it was given. *)
Theorem compress_documents_at_most_top_n top_n documents query w :
  (0 ≤ top_n)%Z →
  ∃ out w',
    compress_documents top_n documents query w = (Ret out, w')
    ∧ (Z.of_nat (length out) ≤ Z.of_nat (length documents) `min` top_n)%Z.
Proof.
  intros Htop.
  destruct (rerank query (page_content <$> documents) (Some top_n) w)
    as [[ranking|e] w1] eqn:Hrerank.
  - destruct (compress_documents_runs top_n documents query w ranking w1 Hrerank)
      as (out & Hrun & _ & Hlen).
    exists out, w1. split; [done|].
    destruct (rerank_ret_drawn _ _ _ _ _ _ Hrerank) as [_ Hbound].
    specialize (Hbound top_n eq_refl Htop). rewrite length_fmap in Hbound. lia.
  - eexists _, _. split.
    + unfold compress_documents, try_except. rewrite run_bind, Hrerank.
      unfold_M. reflexivity.
    + by apply slice_to_length_nonneg.
Qed.

End facts.

Lemma generate_wraps_one_answer_witness :
  _stream (provider := provider_by_length) (builtins := strict_builtins)
    [SystemMessage (VStr "be terse"); OtherMessage "tool" (VObj "42")] (World () [])
  = (Ret [MkChatResult
            [MkChatGeneration
               (AIMessage (VStr ("System: be terse" +:+ nl +:+ "User: 42" +:+ nl
                                 +:+ "Assistant:")))]],
     World ()
       [EvPredict (RowPrompt ("System: be terse" +:+ nl +:+ "User: 42" +:+ nl
                              +:+ "Assistant:"))]).
Proof.
  apply (generate_wraps_one_answer (provider := provider_by_length)
           (builtins := strict_builtins)
           [SystemMessage (VStr "be terse"); OtherMessage "tool" (VObj "42")]
           (World () [])).
  vm_compute. reflexivity.
Defined.


Lemma compress_documents_reranked_witness :
  ∃ out,
    compress_documents (provider := provider_by_length) (builtins := strict_builtins)
      (sorter := insertion_sort) 2 [doc "aa"; doc "bbbb"; doc "c"] "q" (World () [])
    = (Ret out,
       World ()
         [EvPredict (RowRerank "q" "aa" 0); EvPredict (RowRerank "q" "bbbb" 1);
          EvPredict (RowRerank "q" "c" 2)])
    ∧ length out = 2%nat.
Proof.
  destruct (compress_documents_reranked (provider := provider_by_length)
              (builtins := strict_builtins) (sorter := insertion_sort) 2 [doc "aa"; doc "bbbb"; doc "c"] "q"
              (World () []) [Scored "bbbb" (FNum 4) 1; Scored "aa" (FNum 2) 0]
              (World ()
                 [EvPredict (RowRerank "q" "aa" 0); EvPredict (RowRerank "q" "bbbb" 1);
                  EvPredict (RowRerank "q" "c" 2)]))
    as (out & Hrun & Hlen & _).
  - vm_compute. reflexivity.
  - exists out. split; [exact Hrun | exact Hlen].
Defined.

Lemma compress_documents_at_most_top_n_witness :
  ∃ out w',
    compress_documents (provider := provider_down) (builtins := strict_builtins)
      (sorter := insertion_sort) 1 [doc "aa"; doc "bbbb"; doc "c"] "q" (World () []) = (Ret out, w')
    ∧ (Z.of_nat (length out) ≤ Z.of_nat (length [doc "aa"; doc "bbbb"; doc "c"]) `min` 1)%Z.
Proof.
  apply (compress_documents_at_most_top_n (provider := provider_down)
           (builtins := strict_builtins) (sorter := insertion_sort) 1 [doc "aa"; doc "bbbb"; doc "c"] "q"
           (World () [])).
  lia.
Defined.

End DataRobotLangchainExtra.
